(** * tf2/transform_datatypes.h

    A shallow embedding of the tf2 conversion layer
    (src/tf2/include/tf2/transform_datatypes.h): the [Stamped] wrapper,
    [StampedTransform], their comparison operators and the conversions
    between geometry_msgs messages and the LinearMath value types.

    The header is written against [btScalar], the scalar type of the
    LinearMath library.  The embedding keeps that parameter: every function
    is defined once, over a type class of scalar operations, and is run at
    two instances,
    - [float], IEEE 754 binary64, which is what the compiled code computes
      with (evaluation by [vm_compute]), and
    - [R], exact real arithmetic, which is what "unit norm" and the angle
      identities are statements about.

    ROS_WARN is modelled as a writer effect: a conversion returns its
    result together with the list of warnings it emitted. *)

From Stdlib Require Import Floats.
From Stdlib Require Import ZArith Bool String List Reals Lra.
Import ListNotations.

Set Implicit Arguments.

(** ** The scalar type *)

(** The operations of [btScalar] the header and the LinearMath routines it
    calls rely on.  [bt_0_1f] is the value of the C++ literal [0.1f] (a
    binary32 number) after its conversion to the scalar type. *)
Class btScalarOps (S : Type) : Type := {
  bt_0 : S;
  bt_1 : S;
  bt_2 : S;
  bt_half : S;
  bt_0_1f : S;
  bt_add : S -> S -> S;
  bt_sub : S -> S -> S;
  bt_mul : S -> S -> S;
  bt_div : S -> S -> S;
  bt_neg : S -> S;
  btSqrt : S -> S;
  btFabs : S -> S;
  bt_ltb : S -> S -> bool;
  bt_leb : S -> S -> bool;
  bt_eqb : S -> S -> bool
}.

Declare Scope bt_scope.
Delimit Scope bt_scope with bt.
Infix "+" := bt_add : bt_scope.
Infix "-" := bt_sub : bt_scope.
Infix "*" := bt_mul : bt_scope.
Infix "/" := bt_div : bt_scope.
Notation "- a" := (bt_neg a) : bt_scope.
Notation "a <? b" := (bt_ltb a b) : bt_scope.
Notation "a >? b" := (bt_ltb b a) : bt_scope.
Notation "a <=? b" := (bt_leb a b) : bt_scope.
Notation "a >=? b" := (bt_leb b a) : bt_scope.
Notation "a ==? b" := (bt_eqb a b) (at level 70) : bt_scope.

(** binary64: the arithmetic of a C++ [double].  [0.1f] is
    13421773 * 2^-27, written here as the hexadecimal literal it is. *)
#[export] Instance double_ops : btScalarOps float := {
  bt_0 := 0%float;
  bt_1 := 1%float;
  bt_2 := 2%float;
  bt_half := 0.5%float;
  bt_0_1f := 0x1.99999ap-4%float;
  bt_add := PrimFloat.add;
  bt_sub := PrimFloat.sub;
  bt_mul := PrimFloat.mul;
  bt_div := PrimFloat.div;
  bt_neg := PrimFloat.opp;
  btSqrt := PrimFloat.sqrt;
  btFabs := PrimFloat.abs;
  bt_ltb := PrimFloat.ltb;
  bt_leb := PrimFloat.leb;
  bt_eqb := PrimFloat.eqb
}.

Definition Rltb (a b : R) : bool := if Rlt_dec a b then true else false.
Definition Rleb (a b : R) : bool := if Rle_dec a b then true else false.
Definition Reqb (a b : R) : bool := if Req_dec_T a b then true else false.

(** Exact arithmetic: the same operations on real numbers. *)
#[export] Instance exact_ops : btScalarOps R := {
  bt_0 := 0%R;
  bt_1 := 1%R;
  bt_2 := 2%R;
  bt_half := (1 / 2)%R;
  bt_0_1f := (13421773 / 134217728)%R;
  bt_add := Rplus;
  bt_sub := Rminus;
  bt_mul := Rmult;
  bt_div := Rdiv;
  bt_neg := Ropp;
  btSqrt := R_sqrt.sqrt;
  btFabs := Rabs;
  bt_ltb := Rltb;
  bt_leb := Rleb;
  bt_eqb := Reqb
}.

(** The decimal 0.1 of the specification, in each arithmetic: the binary64
    number nearest to one tenth, and one tenth. *)
Class btTenth (S : Type) : Type := bt_tenth : S.
#[export] Instance double_tenth : btTenth float := 0x1.999999999999ap-4%float.
#[export] Instance exact_tenth : btTenth R := (1 / 10)%R.

(** The elementary functions of the math library (btSin, btCos, btAsin,
    btAtan2 and the constant SIMD_PI), which the roll/pitch/yaw routines
    call.  binary64 has no instance: the value of a libm function at a
    binary64 argument is not fixed by IEEE 754. *)
Class btScalarTrig (S : Type) : Type := {
  btSin : S -> S;
  btCos : S -> S;
  btAsin : S -> S;
  btAtan2 : S -> S -> S;
  SIMD_PI : S
}.

(** atan2(y, x) on real numbers: the angle in (-PI, PI] of the point
    (x, y), and 0 at the origin. *)
Definition Ratan2 (y x : R) : R :=
  if Rlt_dec 0 x then atan (y / x)
  else if Rlt_dec x 0 then
    if Rle_dec 0 y then atan (y / x) + PI else atan (y / x) - PI
  else if Rlt_dec 0 y then PI / 2
  else if Rlt_dec y 0 then - (PI / 2)
  else 0.

#[export] Instance exact_trig : btScalarTrig R := {
  btSin := sin;
  btCos := cos;
  btAsin := asin;
  btAtan2 := Ratan2;
  SIMD_PI := PI
}.

(** ** ROS_WARN *)

(** Modelled from the spec: the warning-logging sink of ros/console.h
    ("accepts a formatted string").  A computation that may warn returns
    its value and the warnings it emitted, oldest first. *)
Definition Console (A : Type) : Type := (A * list string)%type.

Definition ret {A} (a : A) : Console A := (a, []).

Definition bind {A B} (m : Console A) (k : A -> Console B) : Console B :=
  let (a, l1) := m in let (b, l2) := k a in (b, l1 ++ l2).

Definition ROS_WARN (text : string) : Console unit := (tt, [text]).

Definition value {A} (m : Console A) : A := fst m.
Definition warnings {A} (m : Console A) : list string := snd m.

Notation "x <- m ;; k" := (bind m (fun x => k))
  (at level 61, m at next level, right associativity).
Notation "m ;;; k" := (bind m (fun _ => k))
  (at level 61, right associativity).

(** ** LinearMath value types *)

(** Modelled from the spec: "Vector3/Point (3 numeric components)" of the
    math library, compared component by component. *)
Module btVector3.

Record t (S : Type) : Type := mk { x : S; y : S; z : S }.
Arguments mk {S}.

Section Ops.
Context {S : Type} `{btScalarOps S}.
Local Open Scope bt_scope.

Definition dot (a b : t S) : S := x a * x b + y a * y b + z a * z b.

(** operator== *)
Definition eqb (a b : t S) : bool :=
  (z a ==? z b) && (y a ==? y b) && (x a ==? x b).

End Ops.
End btVector3.

(** Modelled from the spec: the quaternion of the math library, "4 numeric
    components", with its "quaternion construction, squared-length,
    normalization, accessors".  Squared length is the dot product of the
    quaternion with itself; [normalize] divides by the length, and division
    by a scalar multiplies by its reciprocal.  [setRPY] is "Build a
    Quaternion from roll/pitch/yaw", the roll about the X axis, the pitch
    about the Y axis and the yaw about the Z axis of the header's comments,
    by the half-angle products.  [quatRotate] applies a rotation to a
    vector: the product q * v * q^-1, the inverse of a rotation being its
    conjugate. *)
Module btQuaternion.

Record t (S : Type) : Type := mk { x : S; y : S; z : S; w : S }.
Arguments mk {S}.

Section Ops.
Context {S : Type} `{btScalarOps S}.
Local Open Scope bt_scope.

Definition dot (p q : t S) : S :=
  x p * x q + y p * y q + z p * z q + w p * w q.

Definition length2 (q : t S) : S := dot q q.

Definition length (q : t S) : S := btSqrt (length2 q).

(** operator*=(s) *)
Definition scale (q : t S) (s : S) : t S :=
  mk (x q * s) (y q * s) (z q * s) (w q * s).

(** operator/=(s) *)
Definition div (q : t S) (s : S) : t S := scale q (bt_1 / s).

Definition normalize (q : t S) : t S := div q (length q).

Definition inverse (q : t S) : t S := mk (- x q) (- y q) (- z q) (w q).

(** operator*=(q) *)
Definition mul (p q : t S) : t S :=
  mk (w p * x q + x p * w q + y p * z q - z p * y q)
     (w p * y q + y p * w q + z p * x q - x p * z q)
     (w p * z q + z p * w q + x p * y q - y p * x q)
     (w p * w q - x p * x q - y p * y q - z p * z q).

(** operator*(q, v) *)
Definition mul_vec (q : t S) (v : btVector3.t S) : t S :=
  mk (w q * btVector3.x v + y q * btVector3.z v - z q * btVector3.y v)
     (w q * btVector3.y v + z q * btVector3.x v - x q * btVector3.z v)
     (w q * btVector3.z v + x q * btVector3.y v - y q * btVector3.x v)
     (- x q * btVector3.x v - y q * btVector3.y v - z q * btVector3.z v).

Definition quatRotate (rotation : t S) (v : btVector3.t S) : btVector3.t S :=
  let q := mul_vec rotation v in
  let q := mul q (inverse rotation) in
  btVector3.mk (x q) (y q) (z q).

Context `{btScalarTrig S}.

Definition setRPY (roll pitch yaw : S) : t S :=
  let halfYaw := yaw * bt_half in
  let halfPitch := pitch * bt_half in
  let halfRoll := roll * bt_half in
  let cosYaw := btCos halfYaw in
  let sinYaw := btSin halfYaw in
  let cosPitch := btCos halfPitch in
  let sinPitch := btSin halfPitch in
  let cosRoll := btCos halfRoll in
  let sinRoll := btSin halfRoll in
  mk (sinRoll * cosPitch * cosYaw - cosRoll * sinPitch * sinYaw)
     (cosRoll * sinPitch * cosYaw + sinRoll * cosPitch * sinYaw)
     (cosRoll * cosPitch * sinYaw - sinRoll * sinPitch * cosYaw)
     (cosRoll * cosPitch * cosYaw + sinRoll * sinPitch * sinYaw).

End Ops.
End btQuaternion.

(** Modelled from the spec: the "rotation-matrix construction, and
    roll/pitch/yaw decomposition" of the math library.  The matrix of a
    quaternion scales by 2 / length2, so it is a rotation for every
    non-zero quaternion; the decomposition reads the pitch off the first
    column ([- asin] of its last entry), then roll and yaw by [atan2], with
    the two gimbal-lock cases apart. *)
Module btMatrix3x3.

Record t (S : Type) : Type :=
  mk { row0 : btVector3.t S; row1 : btVector3.t S; row2 : btVector3.t S }.
Arguments mk {S}.

Record Euler (S : Type) : Type := mkEuler { yaw : S; pitch : S; roll : S }.
Arguments mkEuler {S}.

Section Ops.
Context {S : Type} `{btScalarOps S} `{btScalarTrig S}.
Local Open Scope bt_scope.

(** btMatrix3x3(q): setRotation(q) *)
Definition setRotation (q : btQuaternion.t S) : t S :=
  let d := btQuaternion.length2 q in
  let s := bt_2 / d in
  let xs := btQuaternion.x q * s in
  let ys := btQuaternion.y q * s in
  let zs := btQuaternion.z q * s in
  let wx := btQuaternion.w q * xs in
  let wy := btQuaternion.w q * ys in
  let wz := btQuaternion.w q * zs in
  let xx := btQuaternion.x q * xs in
  let xy := btQuaternion.x q * ys in
  let xz := btQuaternion.x q * zs in
  let yy := btQuaternion.y q * ys in
  let yz := btQuaternion.y q * zs in
  let zz := btQuaternion.z q * zs in
  mk (btVector3.mk (bt_1 - (yy + zz)) (xy - wz) (xz + wy))
     (btVector3.mk (xy + wz) (bt_1 - (xx + zz)) (yz - wx))
     (btVector3.mk (xz - wy) (yz + wx) (bt_1 - (xx + yy))).

(** operator*(m, v) *)
Definition mul_vec (m : t S) (v : btVector3.t S) : btVector3.t S :=
  btVector3.mk (btVector3.dot (row0 m) v) (btVector3.dot (row1 m) v)
               (btVector3.dot (row2 m) v).

(** getEulerYPR, first solution *)
Definition getEulerYPR (m : t S) : Euler S :=
  if btFabs (btVector3.x (row2 m)) >=? bt_1 then
    let delta := btAtan2 (btVector3.y (row2 m)) (btVector3.z (row2 m)) in
    if btVector3.x (row2 m) <? bt_0
    then mkEuler bt_0 (SIMD_PI / bt_2) delta
    else mkEuler bt_0 (- SIMD_PI / bt_2) delta
  else
    let p := - btAsin (btVector3.x (row2 m)) in
    mkEuler
      (btAtan2 (btVector3.x (row1 m) / btCos p) (btVector3.x (row0 m) / btCos p))
      p
      (btAtan2 (btVector3.y (row2 m) / btCos p) (btVector3.z (row2 m) / btCos p)).

(** getRPY(roll, pitch, yaw): the three angles, in the order of its
    out-parameters. *)
Definition getRPY (m : t S) : S * S * S :=
  let e := getEulerYPR m in (roll e, pitch e, yaw e).

End Ops.
End btMatrix3x3.

(** The rigid transform of the math library, btTransform, is used by the
    header through three operations only: the constructor from a quaternion
    and a vector, [getOrigin] and [getRotation] (and operator==).  They are
    taken as a parameter, so that what is proved of the conversions holds
    for whatever the library stores inside a transform. *)
Class btTransformOps (S : Type) : Type := {
  btTransform : Type;
  btTransform_mk : btQuaternion.t S -> btVector3.t S -> btTransform;
  getOrigin : btTransform -> btVector3.t S;
  getRotation : btTransform -> btQuaternion.t S;
  btTransform_eqb : btTransform -> btTransform -> bool
}.

(** Modelled from the spec: "Transform/Pose (rotation + translation,
    composed of a Quaternion and a Vector3)"; construction composes the
    two, "inverse direction decomposes".  Used where a concrete transform
    is needed to run the conversions. *)
Module PairTransform.

Record t (S : Type) : Type := mk { rotation : btQuaternion.t S; origin : btVector3.t S }.
Arguments mk {S}.

Definition eqb {S} `{btScalarOps S} (a b : t S) : bool :=
  let qa := rotation a in
  let qb := rotation b in
  bt_eqb (btQuaternion.x qa) (btQuaternion.x qb)
  && bt_eqb (btQuaternion.y qa) (btQuaternion.y qb)
  && bt_eqb (btQuaternion.z qa) (btQuaternion.z qb)
  && bt_eqb (btQuaternion.w qa) (btQuaternion.w qb)
  && btVector3.eqb (origin a) (origin b).

End PairTransform.

#[export] Instance pair_transform_ops {S} `{btScalarOps S} : btTransformOps S := {
  btTransform := PairTransform.t S;
  btTransform_mk := PairTransform.mk;
  getOrigin := @PairTransform.origin S;
  getRotation := @PairTransform.rotation S;
  btTransform_eqb := PairTransform.eqb
}.

(** ** ROS types *)

(** Modelled from the spec: ros::Time of ros/time.h, the "process-defined
    time representation": seconds and nanoseconds, compared field by
    field; the default constructor gives time zero. *)
Module ros.

Record Time : Type := mkTime { sec : Z; nsec : Z }.

Definition Time_default : Time := mkTime 0 0.

Definition Time_eqb (a b : Time) : bool :=
  Z.eqb (sec a) (sec b) && Z.eqb (nsec a) (nsec b).

End ros.

(** Modelled from the spec: the message structures of section 6,
    "Header{stamp: Time, frame_id: string}" first.  std_msgs/Header also
    carries the sequence number [seq], which no conversion writes. *)
Module Header.

Record t : Type := mk { seq : Z; stamp : ros.Time; frame_id : string }.

Definition set_stamp (h : t) (v : ros.Time) : t := mk (seq h) v (frame_id h).
Definition set_frame_id (h : t) (v : string) : t := mk (seq h) (stamp h) v.

End Header.

(** Modelled from the spec: "QuaternionMsg{x,y,z,w: float64}",
    "Vector3Msg{x,y,z: float64}, PointMsg{x,y,z: float64}",
    "TransformMsg{translation: Vector3Msg, rotation: QuaternionMsg}",
    "PoseMsg{position: PointMsg, orientation: QuaternionMsg}" and their
    stamped variants, which add the header and, for transforms, the
    child_frame_id.  A setter stands for an assignment to one field. *)
Module geometry_msgs.

Module Quaternion.
Record t (S : Type) : Type := mk { x : S; y : S; z : S; w : S }.
Arguments mk {S}.
Definition set_x {S} (m : t S) (v : S) : t S := mk v (y m) (z m) (w m).
Definition set_y {S} (m : t S) (v : S) : t S := mk (x m) v (z m) (w m).
Definition set_z {S} (m : t S) (v : S) : t S := mk (x m) (y m) v (w m).
Definition set_w {S} (m : t S) (v : S) : t S := mk (x m) (y m) (z m) v.
(** The constructor of a message sets its numeric fields to zero. *)
Definition default {S} `{btScalarOps S} : t S := mk bt_0 bt_0 bt_0 bt_0.
End Quaternion.

Module Vector3.
Record t (S : Type) : Type := mk { x : S; y : S; z : S }.
Arguments mk {S}.
Definition set_x {S} (m : t S) (v : S) : t S := mk v (y m) (z m).
Definition set_y {S} (m : t S) (v : S) : t S := mk (x m) v (z m).
Definition set_z {S} (m : t S) (v : S) : t S := mk (x m) (y m) v.
End Vector3.

Module Point.
Record t (S : Type) : Type := mk { x : S; y : S; z : S }.
Arguments mk {S}.
Definition set_x {S} (m : t S) (v : S) : t S := mk v (y m) (z m).
Definition set_y {S} (m : t S) (v : S) : t S := mk (x m) v (z m).
Definition set_z {S} (m : t S) (v : S) : t S := mk (x m) (y m) v.
End Point.

Module Transform.
Record t (S : Type) : Type := mk { translation : Vector3.t S; rotation : Quaternion.t S }.
Arguments mk {S}.
Definition set_translation {S} (m : t S) (v : Vector3.t S) : t S := mk v (rotation m).
Definition set_rotation {S} (m : t S) (v : Quaternion.t S) : t S := mk (translation m) v.
End Transform.

Module Pose.
Record t (S : Type) : Type := mk { position : Point.t S; orientation : Quaternion.t S }.
Arguments mk {S}.
Definition set_position {S} (m : t S) (v : Point.t S) : t S := mk v (orientation m).
Definition set_orientation {S} (m : t S) (v : Quaternion.t S) : t S := mk (position m) v.
End Pose.

Module QuaternionStamped.
Record t (S : Type) : Type := mk { header : Header.t; quaternion : Quaternion.t S }.
Arguments mk {S}.
Definition set_header {S} (m : t S) (v : Header.t) : t S := mk v (quaternion m).
Definition set_quaternion {S} (m : t S) (v : Quaternion.t S) : t S := mk (header m) v.
End QuaternionStamped.

Module Vector3Stamped.
Record t (S : Type) : Type := mk { header : Header.t; vector : Vector3.t S }.
Arguments mk {S}.
Definition set_header {S} (m : t S) (v : Header.t) : t S := mk v (vector m).
Definition set_vector {S} (m : t S) (v : Vector3.t S) : t S := mk (header m) v.
End Vector3Stamped.

Module PointStamped.
Record t (S : Type) : Type := mk { header : Header.t; point : Point.t S }.
Arguments mk {S}.
Definition set_header {S} (m : t S) (v : Header.t) : t S := mk v (point m).
Definition set_point {S} (m : t S) (v : Point.t S) : t S := mk (header m) v.
End PointStamped.

Module PoseStamped.
Record t (S : Type) : Type := mk { header : Header.t; pose : Pose.t S }.
Arguments mk {S}.
Definition set_header {S} (m : t S) (v : Header.t) : t S := mk v (pose m).
Definition set_pose {S} (m : t S) (v : Pose.t S) : t S := mk (header m) v.
End PoseStamped.

Module TransformStamped.
Record t (S : Type) : Type :=
  mk { header : Header.t; child_frame_id : string; transform : Transform.t S }.
Arguments mk {S}.
Definition set_header {S} (m : t S) (v : Header.t) : t S :=
  mk v (child_frame_id m) (transform m).
Definition set_child_frame_id {S} (m : t S) (v : string) : t S :=
  mk (header m) v (transform m).
Definition set_transform {S} (m : t S) (v : Transform.t S) : t S :=
  mk (header m) (child_frame_id m) v.
End TransformStamped.

End geometry_msgs.

(** ** namespace tf2 *)

(** The operator== of a value type, as [Stamped<T>]'s comparison uses it. *)
Class EqOp (T : Type) : Type := op_eq : T -> T -> bool.

#[export] Instance btVector3_EqOp {S} `{btScalarOps S} : EqOp (btVector3.t S) :=
  btVector3.eqb.

#[export] Instance btTransform_EqOp {S} `{btTransformOps S} : EqOp btTransform :=
  btTransform_eqb.

Module tf2.

(** template <typename T> class Stamped : public T.  [data] is the T
    subobject the class inherits. *)
Module Stamped.

Record t (T : Type) : Type := mk { data : T; stamp_ : ros.Time; frame_id_ : string }.

(** Stamped(): the T subobject and the timestamp are default-constructed
    ([T_default] is what T's default constructor leaves), the frame is the
    sentinel. *)
Definition default {T} (T_default : T) : t T :=
  mk T_default ros.Time_default "NO_ID_STAMPED_DEFAULT_CONSTRUCTION".

(** Stamped(input, timestamp, frame_id) *)
Definition full {T} (input : T) (timestamp : ros.Time) (frame_id : string) : t T :=
  mk input timestamp frame_id.

Definition setData {T} (this : t T) (input : T) : t T :=
  mk input (stamp_ this) (frame_id_ this).

Definition set_stamp_ {T} (this : t T) (v : ros.Time) : t T :=
  mk (data this) v (frame_id_ this).

Definition set_frame_id_ {T} (this : t T) (v : string) : t T :=
  mk (data this) (stamp_ this) v.

(** operator==(const Stamped<T>&, const Stamped<T>&) *)
Definition eqb {T} `{EqOp T} (a b : t T) : bool :=
  String.eqb (frame_id_ a) (frame_id_ b)
  && ros.Time_eqb (stamp_ a) (stamp_ b)
  && op_eq (data a) (data b).

End Stamped.

(** class StampedTransform : public tf2::Transform *)
Module StampedTransform.

Record t (T : Type) : Type :=
  mk { data : T; stamp_ : ros.Time; frame_id_ : string; child_frame_id_ : string }.

(** StampedTransform(input, timestamp, frame_id, child_frame_id) *)
Definition full {T} (input : T) (timestamp : ros.Time)
    (frame_id child_frame_id : string) : t T :=
  mk input timestamp frame_id child_frame_id.

(** StampedTransform(): every member is default-constructed; a
    default-constructed std::string is empty. *)
Definition default {T} (T_default : T) : t T :=
  mk T_default ros.Time_default "" "".

Definition setData {T} (this : t T) (input : T) : t T :=
  mk input (stamp_ this) (frame_id_ this) (child_frame_id_ this).

Definition set_stamp_ {T} (this : t T) (v : ros.Time) : t T :=
  mk (data this) v (frame_id_ this) (child_frame_id_ this).

Definition set_frame_id_ {T} (this : t T) (v : string) : t T :=
  mk (data this) (stamp_ this) v (child_frame_id_ this).

Definition set_child_frame_id_ {T} (this : t T) (v : string) : t T :=
  mk (data this) (stamp_ this) (frame_id_ this) v.

(** operator==(const StampedTransform&, const StampedTransform&) *)
Definition eqb {T} `{EqOp T} (a b : t T) : bool :=
  String.eqb (frame_id_ a) (frame_id_ b)
  && String.eqb (child_frame_id_ a) (child_frame_id_ b)
  && ros.Time_eqb (stamp_ a) (stamp_ b)
  && op_eq (data a) (data b).

End StampedTransform.

Section Conversions.
Context {S : Type} `{btScalarOps S} `{btTransformOps S}.
Local Open Scope bt_scope.

Definition Quaternion : Type := btQuaternion.t S.
Definition Vector3 : Type := btVector3.t S.
Definition Point : Type := btVector3.t S.
Definition Transform : Type := btTransform.
Definition Pose : Type := btTransform.

(** static const double QUATERNION_TOLERANCE = 0.1f; *)
Definition QUATERNION_TOLERANCE : S := bt_0_1f.

(** The test both quaternion conversions make:
    fabs(bt.length2() - 1) > QUATERNION_TOLERANCE. *)
Definition not_normalized (bt : Quaternion) : bool :=
  btFabs (btQuaternion.length2 bt - bt_1) >? QUATERNION_TOLERANCE.

(** An out-parameter the function assigns as a whole is the result; one it
    writes member by member is an argument (the object before the call) and
    the result (the object after it). *)
Definition quaternionMsgToTF2 (msg : geometry_msgs.Quaternion.t S) : Console Quaternion :=
  let bt := btQuaternion.mk (geometry_msgs.Quaternion.x msg) (geometry_msgs.Quaternion.y msg)
                            (geometry_msgs.Quaternion.z msg) (geometry_msgs.Quaternion.w msg) in
  if not_normalized bt then
    ROS_WARN "MSG to TF2: Quaternion Not Properly Normalized" ;;;
    let bt := btQuaternion.normalize bt in
    ret bt
  else ret bt.

(** quaternionTF2ToMsg returns both objects it was given references to, as
    the call leaves them: [bt], bound to a reference to const, and [msg]. *)
Definition quaternionTF2ToMsg (bt : Quaternion) (msg : geometry_msgs.Quaternion.t S)
    : Console (Quaternion * geometry_msgs.Quaternion.t S) :=
  if not_normalized bt then
    ROS_WARN "TF2 to MSG: Quaternion Not Properly Normalized" ;;;
    let bt_temp := bt in
    let bt_temp := btQuaternion.normalize bt_temp in
    let msg := geometry_msgs.Quaternion.set_x msg (btQuaternion.x bt_temp) in
    let msg := geometry_msgs.Quaternion.set_y msg (btQuaternion.y bt_temp) in
    let msg := geometry_msgs.Quaternion.set_z msg (btQuaternion.z bt_temp) in
    let msg := geometry_msgs.Quaternion.set_w msg (btQuaternion.w bt_temp) in
    ret (bt, msg)
  else
    let msg := geometry_msgs.Quaternion.set_x msg (btQuaternion.x bt) in
    let msg := geometry_msgs.Quaternion.set_y msg (btQuaternion.y bt) in
    let msg := geometry_msgs.Quaternion.set_z msg (btQuaternion.z bt) in
    let msg := geometry_msgs.Quaternion.set_w msg (btQuaternion.w bt) in
    ret (bt, msg).

Definition quaternionStampedMsgToTF2 (msg : geometry_msgs.QuaternionStamped.t S)
    (bt : Stamped.t Quaternion) : Console (Stamped.t Quaternion) :=
  q <- quaternionMsgToTF2 (geometry_msgs.QuaternionStamped.quaternion msg) ;;
  let bt := Stamped.setData bt q in
  let bt := Stamped.set_stamp_ bt (Header.stamp (geometry_msgs.QuaternionStamped.header msg)) in
  let bt := Stamped.set_frame_id_ bt (Header.frame_id (geometry_msgs.QuaternionStamped.header msg)) in
  ret bt.

Definition quaternionStampedTF2ToMsg (bt : Stamped.t Quaternion)
    (msg : geometry_msgs.QuaternionStamped.t S) : Console (geometry_msgs.QuaternionStamped.t S) :=
  r <- quaternionTF2ToMsg (Stamped.data bt) (geometry_msgs.QuaternionStamped.quaternion msg) ;;
  let msg := geometry_msgs.QuaternionStamped.set_quaternion msg (snd r) in
  let msg := geometry_msgs.QuaternionStamped.set_header msg
               (Header.set_stamp (geometry_msgs.QuaternionStamped.header msg) (Stamped.stamp_ bt)) in
  let msg := geometry_msgs.QuaternionStamped.set_header msg
               (Header.set_frame_id (geometry_msgs.QuaternionStamped.header msg) (Stamped.frame_id_ bt)) in
  ret msg.

Definition vector3MsgToTF2 (msg_v : geometry_msgs.Vector3.t S) : Console Vector3 :=
  let bt_v := btVector3.mk (geometry_msgs.Vector3.x msg_v) (geometry_msgs.Vector3.y msg_v)
                           (geometry_msgs.Vector3.z msg_v) in
  ret bt_v.

Definition vector3TF2ToMsg (bt_v : Vector3) (msg_v : geometry_msgs.Vector3.t S)
    : Console (geometry_msgs.Vector3.t S) :=
  let msg_v := geometry_msgs.Vector3.set_x msg_v (btVector3.x bt_v) in
  let msg_v := geometry_msgs.Vector3.set_y msg_v (btVector3.y bt_v) in
  let msg_v := geometry_msgs.Vector3.set_z msg_v (btVector3.z bt_v) in
  ret msg_v.

Definition vector3StampedMsgToTF2 (msg : geometry_msgs.Vector3Stamped.t S)
    (bt : Stamped.t Vector3) : Console (Stamped.t Vector3) :=
  v <- vector3MsgToTF2 (geometry_msgs.Vector3Stamped.vector msg) ;;
  let bt := Stamped.setData bt v in
  let bt := Stamped.set_stamp_ bt (Header.stamp (geometry_msgs.Vector3Stamped.header msg)) in
  let bt := Stamped.set_frame_id_ bt (Header.frame_id (geometry_msgs.Vector3Stamped.header msg)) in
  ret bt.

Definition vector3StampedTF2ToMsg (bt : Stamped.t Vector3)
    (msg : geometry_msgs.Vector3Stamped.t S) : Console (geometry_msgs.Vector3Stamped.t S) :=
  v <- vector3TF2ToMsg (Stamped.data bt) (geometry_msgs.Vector3Stamped.vector msg) ;;
  let msg := geometry_msgs.Vector3Stamped.set_vector msg v in
  let msg := geometry_msgs.Vector3Stamped.set_header msg
               (Header.set_stamp (geometry_msgs.Vector3Stamped.header msg) (Stamped.stamp_ bt)) in
  let msg := geometry_msgs.Vector3Stamped.set_header msg
               (Header.set_frame_id (geometry_msgs.Vector3Stamped.header msg) (Stamped.frame_id_ bt)) in
  ret msg.

Definition pointMsgToTF2 (msg_v : geometry_msgs.Point.t S) : Console Point :=
  let bt_v := btVector3.mk (geometry_msgs.Point.x msg_v) (geometry_msgs.Point.y msg_v)
                           (geometry_msgs.Point.z msg_v) in
  ret bt_v.

Definition pointTF2ToMsg (bt_v : Point) (msg_v : geometry_msgs.Point.t S)
    : Console (geometry_msgs.Point.t S) :=
  let msg_v := geometry_msgs.Point.set_x msg_v (btVector3.x bt_v) in
  let msg_v := geometry_msgs.Point.set_y msg_v (btVector3.y bt_v) in
  let msg_v := geometry_msgs.Point.set_z msg_v (btVector3.z bt_v) in
  ret msg_v.

Definition pointStampedMsgToTF2 (msg : geometry_msgs.PointStamped.t S)
    (bt : Stamped.t Point) : Console (Stamped.t Point) :=
  v <- pointMsgToTF2 (geometry_msgs.PointStamped.point msg) ;;
  let bt := Stamped.setData bt v in
  let bt := Stamped.set_stamp_ bt (Header.stamp (geometry_msgs.PointStamped.header msg)) in
  let bt := Stamped.set_frame_id_ bt (Header.frame_id (geometry_msgs.PointStamped.header msg)) in
  ret bt.

Definition pointStampedTF2ToMsg (bt : Stamped.t Point)
    (msg : geometry_msgs.PointStamped.t S) : Console (geometry_msgs.PointStamped.t S) :=
  v <- pointTF2ToMsg (Stamped.data bt) (geometry_msgs.PointStamped.point msg) ;;
  let msg := geometry_msgs.PointStamped.set_point msg v in
  let msg := geometry_msgs.PointStamped.set_header msg
               (Header.set_stamp (geometry_msgs.PointStamped.header msg) (Stamped.stamp_ bt)) in
  let msg := geometry_msgs.PointStamped.set_header msg
               (Header.set_frame_id (geometry_msgs.PointStamped.header msg) (Stamped.frame_id_ bt)) in
  ret msg.

Definition transformMsgToTF2 (msg : geometry_msgs.Transform.t S) : Console Transform :=
  let rotation := geometry_msgs.Transform.rotation msg in
  let translation := geometry_msgs.Transform.translation msg in
  let bt :=
    btTransform_mk
      (btQuaternion.mk (geometry_msgs.Quaternion.x rotation) (geometry_msgs.Quaternion.y rotation)
                       (geometry_msgs.Quaternion.z rotation) (geometry_msgs.Quaternion.w rotation))
      (btVector3.mk (geometry_msgs.Vector3.x translation) (geometry_msgs.Vector3.y translation)
                    (geometry_msgs.Vector3.z translation)) in
  ret bt.

Definition transformTF2ToMsg (bt : Transform) (msg : geometry_msgs.Transform.t S)
    : Console (geometry_msgs.Transform.t S) :=
  v <- vector3TF2ToMsg (getOrigin bt) (geometry_msgs.Transform.translation msg) ;;
  let msg := geometry_msgs.Transform.set_translation msg v in
  r <- quaternionTF2ToMsg (getRotation bt) (geometry_msgs.Transform.rotation msg) ;;
  let msg := geometry_msgs.Transform.set_rotation msg (snd r) in
  ret msg.

Definition transformStampedMsgToTF2 (msg : geometry_msgs.TransformStamped.t S)
    (bt : StampedTransform.t Transform) : Console (StampedTransform.t Transform) :=
  b <- transformMsgToTF2 (geometry_msgs.TransformStamped.transform msg) ;;
  let bt := StampedTransform.setData bt b in
  let bt := StampedTransform.set_stamp_ bt
              (Header.stamp (geometry_msgs.TransformStamped.header msg)) in
  let bt := StampedTransform.set_frame_id_ bt
              (Header.frame_id (geometry_msgs.TransformStamped.header msg)) in
  let bt := StampedTransform.set_child_frame_id_ bt
              (geometry_msgs.TransformStamped.child_frame_id msg) in
  ret bt.

Definition transformStampedTF2ToMsg (bt : StampedTransform.t Transform)
    (msg : geometry_msgs.TransformStamped.t S) : Console (geometry_msgs.TransformStamped.t S) :=
  m <- transformTF2ToMsg (StampedTransform.data bt) (geometry_msgs.TransformStamped.transform msg) ;;
  let msg := geometry_msgs.TransformStamped.set_transform msg m in
  let msg := geometry_msgs.TransformStamped.set_header msg
               (Header.set_stamp (geometry_msgs.TransformStamped.header msg)
                                 (StampedTransform.stamp_ bt)) in
  let msg := geometry_msgs.TransformStamped.set_header msg
               (Header.set_frame_id (geometry_msgs.TransformStamped.header msg)
                                    (StampedTransform.frame_id_ bt)) in
  let msg := geometry_msgs.TransformStamped.set_child_frame_id msg
               (StampedTransform.child_frame_id_ bt) in
  ret msg.

Definition poseMsgToTF2 (msg : geometry_msgs.Pose.t S) : Console Pose :=
  let orientation := geometry_msgs.Pose.orientation msg in
  let position := geometry_msgs.Pose.position msg in
  let bt :=
    btTransform_mk
      (btQuaternion.mk (geometry_msgs.Quaternion.x orientation) (geometry_msgs.Quaternion.y orientation)
                       (geometry_msgs.Quaternion.z orientation) (geometry_msgs.Quaternion.w orientation))
      (btVector3.mk (geometry_msgs.Point.x position) (geometry_msgs.Point.y position)
                    (geometry_msgs.Point.z position)) in
  ret bt.

Definition poseTF2ToMsg (bt : Pose) (msg : geometry_msgs.Pose.t S)
    : Console (geometry_msgs.Pose.t S) :=
  p <- pointTF2ToMsg (getOrigin bt) (geometry_msgs.Pose.position msg) ;;
  let msg := geometry_msgs.Pose.set_position msg p in
  r <- quaternionTF2ToMsg (getRotation bt) (geometry_msgs.Pose.orientation msg) ;;
  let msg := geometry_msgs.Pose.set_orientation msg (snd r) in
  ret msg.

Definition poseStampedMsgToTF2 (msg : geometry_msgs.PoseStamped.t S)
    (bt : Stamped.t Pose) : Console (Stamped.t Pose) :=
  b <- poseMsgToTF2 (geometry_msgs.PoseStamped.pose msg) ;;
  let bt := Stamped.setData bt b in
  let bt := Stamped.set_stamp_ bt (Header.stamp (geometry_msgs.PoseStamped.header msg)) in
  let bt := Stamped.set_frame_id_ bt (Header.frame_id (geometry_msgs.PoseStamped.header msg)) in
  ret bt.

Definition poseStampedTF2ToMsg (bt : Stamped.t Pose)
    (msg : geometry_msgs.PoseStamped.t S) : Console (geometry_msgs.PoseStamped.t S) :=
  m <- poseTF2ToMsg (Stamped.data bt) (geometry_msgs.PoseStamped.pose msg) ;;
  let msg := geometry_msgs.PoseStamped.set_pose msg m in
  let msg := geometry_msgs.PoseStamped.set_header msg
               (Header.set_stamp (geometry_msgs.PoseStamped.header msg) (Stamped.stamp_ bt)) in
  let msg := geometry_msgs.PoseStamped.set_header msg
               (Header.set_frame_id (geometry_msgs.PoseStamped.header msg) (Stamped.frame_id_ bt)) in
  ret msg.

End Conversions.

Section Angles.
Context {S : Type} `{btScalarOps S} `{btScalarTrig S}.
Local Open Scope bt_scope.

(** getYaw(const Quaternion&) *)
Definition getYaw (bt_q : @Quaternion S) : S :=
  let '(useless_roll, useless_pitch, yaw) :=
    btMatrix3x3.getRPY (btMatrix3x3.setRotation bt_q) in
  yaw.

(** getYaw(const geometry_msgs::Quaternion&) *)
Definition getYaw_msg (msg_q : geometry_msgs.Quaternion.t S) : Console S :=
  bt_q <- quaternionMsgToTF2 msg_q ;;
  ret (getYaw bt_q).

Definition createQuaternionFromRPY (roll pitch yaw : S) : @Quaternion S :=
  let q := btQuaternion.setRPY roll pitch yaw in
  q.

Definition createQuaternionFromYaw (yaw : S) : @Quaternion S :=
  let q := btQuaternion.setRPY bt_0 bt_0 yaw in
  q.

Definition createQuaternionMsgFromYaw (yaw : S) : Console (geometry_msgs.Quaternion.t S) :=
  let q := btQuaternion.setRPY bt_0 bt_0 yaw in
  let q_msg := geometry_msgs.Quaternion.default in
  r <- quaternionTF2ToMsg q q_msg ;;
  ret (snd r).

Definition createQuaternionMsgFromRollPitchYaw (roll pitch yaw : S)
    : Console (geometry_msgs.Quaternion.t S) :=
  let q_msg := geometry_msgs.Quaternion.default in
  r <- quaternionTF2ToMsg (createQuaternionFromRPY roll pitch yaw) q_msg ;;
  ret (snd r).

Definition createIdentityQuaternion : @Quaternion S :=
  let q := btQuaternion.setRPY bt_0 bt_0 bt_0 in
  q.

End Angles.
End tf2.

(** ** Vocabulary of the statements *)

Section Vocabulary.
Context {S : Type}.

(** Quaternion(msg.x, msg.y, msg.z, msg.w): the quaternion whose components
    are the fields of a message. *)
Definition Quaternion_of_msg (msg : geometry_msgs.Quaternion.t S) : btQuaternion.t S :=
  btQuaternion.mk (geometry_msgs.Quaternion.x msg) (geometry_msgs.Quaternion.y msg)
                  (geometry_msgs.Quaternion.z msg) (geometry_msgs.Quaternion.w msg).

(** The message whose fields are the components of a quaternion. *)
Definition msg_of_Quaternion (q : btQuaternion.t S) : geometry_msgs.Quaternion.t S :=
  geometry_msgs.Quaternion.mk (btQuaternion.x q) (btQuaternion.y q)
                              (btQuaternion.z q) (btQuaternion.w q).

(** Vector3(msg.x, msg.y, msg.z), for a Vector3 and for a Point message. *)
Definition Vector3_of_msg (msg : geometry_msgs.Vector3.t S) : btVector3.t S :=
  btVector3.mk (geometry_msgs.Vector3.x msg) (geometry_msgs.Vector3.y msg)
               (geometry_msgs.Vector3.z msg).

Definition Point_of_msg (msg : geometry_msgs.Point.t S) : btVector3.t S :=
  btVector3.mk (geometry_msgs.Point.x msg) (geometry_msgs.Point.y msg)
               (geometry_msgs.Point.z msg).

Definition msg_of_Vector3 (v : btVector3.t S) : geometry_msgs.Vector3.t S :=
  geometry_msgs.Vector3.mk (btVector3.x v) (btVector3.y v) (btVector3.z v).

Definition msg_of_Point (v : btVector3.t S) : geometry_msgs.Point.t S :=
  geometry_msgs.Point.mk (btVector3.x v) (btVector3.y v) (btVector3.z v).

End Vocabulary.

(** The texts of the two warnings. *)
Definition MSG_TO_TF2_WARNING : string := "MSG to TF2: Quaternion Not Properly Normalized".
Definition TF2_TO_MSG_WARNING : string := "TF2 to MSG: Quaternion Not Properly Normalized".

(** The rotation by the angle [a] about the Z axis, as a matrix. *)
Definition rotZ (a : R) : btMatrix3x3.t R :=
  btMatrix3x3.mk (btVector3.mk (cos a) (- sin a) 0)%R
                 (btVector3.mk (sin a) (cos a) 0)%R
                 (btVector3.mk 0 0 1)%R.

(** An arithmetic in which a deviation of at most one tenth does not exceed
    the tolerance [0.1f]. *)
Class btTenthBelowTolerance (S : Type) `{btScalarOps S} `{btTenth S} : Prop :=
  tenth_below_tolerance :
    forall a : S, bt_leb a bt_tenth = true -> bt_ltb bt_0_1f a = false.
Arguments btTenthBelowTolerance S {_ _}.

(** * Properties *)

(** ** Comparisons of the two arithmetics *)

Lemma Rltb_true (a b : R) : Rltb a b = true <-> (a < b)%R.
Proof.
  unfold Rltb. destruct (Rlt_dec a b); split; intros; auto; try discriminate; contradiction.
Qed.

Lemma Rltb_false (a b : R) : Rltb a b = false <-> (b <= a)%R.
Proof.
  unfold Rltb. destruct (Rlt_dec a b); split; intros; auto; try discriminate; lra.
Qed.

Lemma Rleb_true (a b : R) : Rleb a b = true <-> (a <= b)%R.
Proof.
  unfold Rleb. destruct (Rle_dec a b); split; intros; auto; try discriminate; contradiction.
Qed.

Lemma Rleb_false (a b : R) : Rleb a b = false <-> (b < a)%R.
Proof.
  unfold Rleb. destruct (Rle_dec a b); split; intros; auto; try discriminate; lra.
Qed.

Lemma Reqb_true (a b : R) : Reqb a b = true <-> a = b.
Proof.
  unfold Reqb. destruct (Req_dec_T a b); split; intros; auto; try discriminate; contradiction.
Qed.

#[export] Instance exact_tenth_below_tolerance : btTenthBelowTolerance R.
Proof.
  intros a Ha. apply Rleb_true in Ha. apply Rltb_false.
  change (bt_tenth (S:=R)) with (1 / 10)%R in Ha.
  change (bt_0_1f (S:=R)) with (13421773 / 134217728)%R. lra.
Qed.

(** On binary64 numbers as IEEE 754 data: whatever is at most the double
    nearest to 0.1 is not above the double that [0.1f] converts to.  Both
    have exponent -56, so the mantissas decide. *)
Lemma SF_tenth_below_tolerance (s : spec_float) :
  SFleb s (S754_finite false 7205759403792794 (-56)) = true ->
  SFltb (S754_finite false 7205759511166976 (-56)) s = false.
Proof.
  unfold SFleb, SFltb, SFcompare.
  destruct s as [[|]|[|]| |[|] m e]; try reflexivity; try discriminate.
  destruct (Z.compare_spec e (-56)) as [He|He|He].
  - subst e. rewrite Z.compare_refl.
    rewrite !Pos.compare_cont_spec. cbn [Pos.switch_Eq].
    intros Hle.
    assert (Hm : (m <= 7205759403792794)%positive).
    { unfold Pos.le. destruct (Pos.compare m 7205759403792794); discriminate. }
    assert (Hc : (7205759403792794 < 7205759511166976)%positive) by (vm_compute; reflexivity).
    pose proof (Pos.le_lt_trans _ _ _ Hm Hc) as Hlt.
    apply Pos.compare_gt_iff in Hlt. rewrite Hlt. reflexivity.
  - intros _. rewrite (proj2 (Z.compare_gt_iff (-56) e) He). reflexivity.
  - discriminate.
Qed.

#[export] Instance double_tenth_below_tolerance : btTenthBelowTolerance float.
Proof.
  intros a. cbn [bt_leb bt_ltb double_ops].
  rewrite leb_spec, ltb_spec.
  change (Prim2SF bt_tenth) with (Prim2SF 0x1.999999999999ap-4%float).
  change (Prim2SF bt_0_1f) with (Prim2SF 0x1.99999ap-4%float).
  replace (Prim2SF 0x1.999999999999ap-4%float)
    with (S754_finite false 7205759403792794 (-56)) by (vm_compute; reflexivity).
  replace (Prim2SF 0x1.99999ap-4%float)
    with (S754_finite false 7205759511166976 (-56)) by (vm_compute; reflexivity).
  apply SF_tenth_below_tolerance.
Qed.

(** ** Quaternions in exact arithmetic *)

Lemma length2_nonneg (q : btQuaternion.t R) : (0 <= btQuaternion.length2 q)%R.
Proof.
  destruct q as [x y z w]. unfold btQuaternion.length2, btQuaternion.dot. simpl. nra.
Qed.

(** Dividing a non-zero quaternion by its length gives a unit quaternion. *)
Lemma length2_normalize (q : btQuaternion.t R) :
  btQuaternion.length2 q <> 0%R ->
  btQuaternion.length2 (btQuaternion.normalize q) = 1%R.
Proof.
  intros Hq.
  assert (Hpos : (0 < btQuaternion.length2 q)%R) by (pose proof (length2_nonneg q); lra).
  destruct q as [x y z w].
  unfold btQuaternion.normalize, btQuaternion.div, btQuaternion.scale, btQuaternion.length,
    btQuaternion.length2, btQuaternion.dot in *.
  simpl in *.
  set (n := (x * x + y * y + z * z + w * w)%R) in *.
  pose proof (sqrt_lt_R0 _ Hpos) as Hs.
  pose proof (sqrt_sqrt _ (Rlt_le _ _ Hpos)) as Hss.
  set (l := R_sqrt.sqrt n) in *.
  replace (x * (1 / l) * (x * (1 / l)) + y * (1 / l) * (y * (1 / l)) +
           z * (1 / l) * (z * (1 / l)) + w * (1 / l) * (w * (1 / l)))%R
    with (n / (l * l))%R by (unfold n; field; lra).
  rewrite Hss. field. lra.
Qed.

(** The test of the conversions, read in exact arithmetic. *)
Lemma not_normalized_exact (q : btQuaternion.t R) :
  tf2.not_normalized q = true <->
  (13421773 / 134217728 < Rabs (btQuaternion.length2 q - 1))%R.
Proof. unfold tf2.not_normalized. simpl. apply Rltb_true. Qed.

(** ** The two branches of the quaternion conversions *)

Section Branches.
Context {S : Type} `{btScalarOps S}.

Lemma quaternionMsgToTF2_warns (msg : geometry_msgs.Quaternion.t S) :
  tf2.not_normalized (Quaternion_of_msg msg) = true ->
  tf2.quaternionMsgToTF2 msg =
    (btQuaternion.normalize (Quaternion_of_msg msg), [MSG_TO_TF2_WARNING]).
Proof.
  intros Hn. unfold tf2.quaternionMsgToTF2, Quaternion_of_msg in *.
  cbv zeta. rewrite Hn. reflexivity.
Qed.

Lemma quaternionMsgToTF2_copies (msg : geometry_msgs.Quaternion.t S) :
  tf2.not_normalized (Quaternion_of_msg msg) = false ->
  tf2.quaternionMsgToTF2 msg = (Quaternion_of_msg msg, []).
Proof.
  intros Hn. unfold tf2.quaternionMsgToTF2, Quaternion_of_msg in *.
  cbv zeta. rewrite Hn. reflexivity.
Qed.

Lemma quaternionTF2ToMsg_warns (bt : btQuaternion.t S) (msg : geometry_msgs.Quaternion.t S) :
  tf2.not_normalized bt = true ->
  tf2.quaternionTF2ToMsg bt msg =
    ((bt, msg_of_Quaternion (btQuaternion.normalize bt)), [TF2_TO_MSG_WARNING]).
Proof.
  intros Hn. unfold tf2.quaternionTF2ToMsg. rewrite Hn. reflexivity.
Qed.

Lemma quaternionTF2ToMsg_copies (bt : btQuaternion.t S) (msg : geometry_msgs.Quaternion.t S) :
  tf2.not_normalized bt = false ->
  tf2.quaternionTF2ToMsg bt msg = ((bt, msg_of_Quaternion bt), []).
Proof.
  intros Hn. unfold tf2.quaternionTF2ToMsg. rewrite Hn. reflexivity.
Qed.

Lemma msg_of_Quaternion_of_msg (msg : geometry_msgs.Quaternion.t S) :
  msg_of_Quaternion (Quaternion_of_msg msg) = msg.
Proof. destruct msg. reflexivity. Qed.

End Branches.

(** ** Quaternion message to quaternion *)

(** C1, as the code has it.  A message whose squared length deviates from 1
    by more than QUATERNION_TOLERANCE (the value of [0.1f]) makes
    quaternionMsgToTF2 emit exactly one warning and return the message's
    quaternion divided by its length.  In exact arithmetic that result has
    unit norm whenever the message is not the zero quaternion.  In binary64,
    the message x=1, y=1, z=0, w=0 gives exactly one warning and a result
    whose squared length is within 2^-52 of 1. *)
Theorem quaternionMsgToTF2_renormalizes :
  (forall (S : Type) (ops : btScalarOps S) (msg : geometry_msgs.Quaternion.t S),
      tf2.not_normalized (Quaternion_of_msg msg) = true ->
      tf2.quaternionMsgToTF2 msg =
        (btQuaternion.normalize (Quaternion_of_msg msg), [MSG_TO_TF2_WARNING]))
  /\ (forall msg : geometry_msgs.Quaternion.t R,
      (13421773 / 134217728 < Rabs (btQuaternion.length2 (Quaternion_of_msg msg) - 1))%R ->
      btQuaternion.length2 (Quaternion_of_msg msg) <> 0%R ->
      List.length (warnings (tf2.quaternionMsgToTF2 msg)) = 1%nat /\
      btQuaternion.length2 (value (tf2.quaternionMsgToTF2 msg)) = 1%R)
  /\ (let r := tf2.quaternionMsgToTF2 (geometry_msgs.Quaternion.mk 1 1 0 0)%float in
      warnings r = [MSG_TO_TF2_WARNING] /\
      value r = (btQuaternion.mk 0x1.6a09e667f3bccp-1 0x1.6a09e667f3bccp-1 0 0)%float /\
      PrimFloat.leb (PrimFloat.abs (btQuaternion.length2 (value r) - 1)) 0x1p-52 = true).
Proof.
  split; [|split].
  - intros S ops msg Hn. apply quaternionMsgToTF2_warns. exact Hn.
  - intros msg Hdev Hnz.
    rewrite (quaternionMsgToTF2_warns msg) by (apply not_normalized_exact; exact Hdev).
    split; [reflexivity|].
    apply length2_normalize. exact Hnz.
  - vm_compute. repeat split; reflexivity.
Qed.

Lemma quaternionMsgToTF2_renormalizes_witness :
  List.length (warnings (tf2.quaternionMsgToTF2 (geometry_msgs.Quaternion.mk 1 1 0 0)%R)) = 1%nat /\
  btQuaternion.length2 (value (tf2.quaternionMsgToTF2 (geometry_msgs.Quaternion.mk 1 1 0 0)%R)) = 1%R.
Proof.
  apply (proj1 (proj2 quaternionMsgToTF2_renormalizes)).
  - unfold btQuaternion.length2, btQuaternion.dot. simpl.
    rewrite Rabs_right; lra.
  - unfold btQuaternion.length2, btQuaternion.dot. simpl. lra.
Defined.

(** C1 as stated fails in binary64 at two messages.  The zero message
    deviates by 1: the warning is emitted, but normalizing divides zero by
    zero and every component of the result is NaN.  The message
    (0, 0, 0, 0x1.0c7ebc98p+0) has squared length 1.10000000066..., more
    than 0.1 away from 1 but not more than [0.1f]: no warning is emitted
    and the quaternion is returned as it is. *)
Lemma quaternionMsgToTF2_not_always_unit :
  (let msg := (geometry_msgs.Quaternion.mk 0 0 0 0)%float in
   let r := tf2.quaternionMsgToTF2 msg in
   PrimFloat.ltb bt_tenth (PrimFloat.abs (btQuaternion.length2 (Quaternion_of_msg msg) - 1)) = true /\
   warnings r = [MSG_TO_TF2_WARNING] /\
   value r = btQuaternion.mk nan nan nan nan /\
   PrimFloat.eqb (btQuaternion.length2 (value r)) 1 = false /\
   PrimFloat.leb (PrimFloat.abs (btQuaternion.length2 (value r) - 1)) bt_tenth = false)
  /\
  (let msg := (geometry_msgs.Quaternion.mk 0 0 0 0x1.0c7ebc98p+0)%float in
   let r := tf2.quaternionMsgToTF2 msg in
   PrimFloat.ltb bt_tenth (PrimFloat.abs (btQuaternion.length2 (Quaternion_of_msg msg) - 1)) = true /\
   warnings r = [] /\
   value r = Quaternion_of_msg msg /\
   PrimFloat.eqb (btQuaternion.length2 (value r)) 1 = false /\
   PrimFloat.leb (PrimFloat.abs (btQuaternion.length2 (value r) - 1)) bt_tenth = false).
Proof. vm_compute. repeat split; reflexivity. Qed.

(** ** Quaternion to quaternion message *)

(** C3, as the code has it.  When the squared length of [bt] deviates from
    1 by more than QUATERNION_TOLERANCE, quaternionTF2ToMsg emits one
    warning and writes into the message the fields of the normalized copy;
    otherwise it emits nothing and writes the fields of [bt].  In both
    cases [bt] is after the call what it was before.  The tolerance is the
    value of [0.1f]: 13421773/134217728 in exact arithmetic,
    0x1.99999ap-4 in binary64. *)
Theorem quaternionTF2ToMsg_branches :
  (forall (S : Type) (ops : btScalarOps S) (bt : btQuaternion.t S)
          (msg : geometry_msgs.Quaternion.t S),
      tf2.quaternionTF2ToMsg bt msg =
        if tf2.not_normalized bt
        then ((bt, msg_of_Quaternion (btQuaternion.normalize bt)), [TF2_TO_MSG_WARNING])
        else ((bt, msg_of_Quaternion bt), []))
  /\ (forall bt : btQuaternion.t R,
      tf2.not_normalized bt = true <->
      (13421773 / 134217728 < Rabs (btQuaternion.length2 bt - 1))%R)
  /\ (forall bt : btQuaternion.t float,
      tf2.not_normalized bt =
      PrimFloat.ltb 0x1.99999ap-4 (PrimFloat.abs (btQuaternion.length2 bt - 1))).
Proof.
  split; [|split].
  - intros S ops bt msg. destruct (tf2.not_normalized bt) eqn:Hn.
    + apply quaternionTF2ToMsg_warns. exact Hn.
    + apply quaternionTF2ToMsg_copies. exact Hn.
  - exact not_normalized_exact.
  - intros bt. reflexivity.
Qed.

(** C3 as stated fails in binary64 at the quaternion
    (0, 0, 0, 0x1.0c7ebc98p+0): its squared length is more than 0.1 away
    from 1, and yet no warning is emitted and the fields are copied as they
    are, although normalizing would change them. *)
Lemma quaternionTF2ToMsg_tolerance_is_not_a_tenth :
  let bt := (btQuaternion.mk 0 0 0 0x1.0c7ebc98p+0)%float in
  PrimFloat.ltb bt_tenth (PrimFloat.abs (btQuaternion.length2 bt - 1)) = true /\
  tf2.quaternionTF2ToMsg bt geometry_msgs.Quaternion.default = ((bt, msg_of_Quaternion bt), []) /\
  PrimFloat.eqb (btQuaternion.w (btQuaternion.normalize bt)) (btQuaternion.w bt) = false.
Proof. vm_compute. repeat split; reflexivity. Qed.

(** ** Round trips *)

(** C4.  A Vector3 message converted to a vector and back, and a Point
    message converted to a point and back, is the message it was, field
    for field, whatever the scalar values and whatever the message written
    into held before; no warning is emitted. *)
Theorem vector3_point_round_trip :
  forall (S : Type),
    (forall msg out : geometry_msgs.Vector3.t S,
        (bt_v <- tf2.vector3MsgToTF2 msg ;; tf2.vector3TF2ToMsg bt_v out) = (msg, []))
    /\ (forall msg out : geometry_msgs.Point.t S,
        (bt_v <- tf2.pointMsgToTF2 msg ;; tf2.pointTF2ToMsg bt_v out) = (msg, [])).
Proof.
  intros S. split; intros [x y z] out; reflexivity.
Qed.

(** C5.  A quaternion message whose squared length is within 0.1 of 1,
    converted by quaternionMsgToTF2 and back by quaternionTF2ToMsg, is the
    message it was: neither conversion takes the normalization branch, the
    four fields are copied, and no warning is emitted.  This holds in every
    arithmetic in which a deviation of at most a tenth is not above the
    tolerance; binary64 and exact arithmetic are such. *)
Theorem quaternion_round_trip (S : Type) (ops : btScalarOps S) (tenth : btTenth S)
    (law : btTenthBelowTolerance S) (msg out : geometry_msgs.Quaternion.t S) :
  bt_leb (btFabs (bt_sub (btQuaternion.length2 (Quaternion_of_msg msg)) bt_1)) bt_tenth = true ->
  (bt <- tf2.quaternionMsgToTF2 msg ;;
   r <- tf2.quaternionTF2ToMsg bt out ;;
   ret (snd r)) = (msg, []).
Proof.
  intros Hdev.
  assert (Hn : tf2.not_normalized (Quaternion_of_msg msg) = false)
    by (apply tenth_below_tolerance; exact Hdev).
  rewrite (quaternionMsgToTF2_copies msg Hn).
  unfold bind at 1.
  rewrite (quaternionTF2ToMsg_copies _ out Hn).
  cbn. rewrite msg_of_Quaternion_of_msg. reflexivity.
Qed.

Lemma quaternion_round_trip_witness :
  let msg := (geometry_msgs.Quaternion.mk 0.5 0.5 0.5 0.5)%float in
  (bt <- tf2.quaternionMsgToTF2 msg ;;
   r <- tf2.quaternionTF2ToMsg bt geometry_msgs.Quaternion.default ;;
   ret (snd r)) = (msg, []).
Proof.
  apply (@quaternion_round_trip float double_ops double_tenth double_tenth_below_tolerance).
  vm_compute. reflexivity.
Defined.

(** ** Which conversions test the quaternion *)

Section TransformBranches.
Context {S : Type} `{btScalarOps S} `{btTransformOps S}.

Lemma transformMsgToTF2_eq (msg : geometry_msgs.Transform.t S) :
  tf2.transformMsgToTF2 msg =
    (btTransform_mk (Quaternion_of_msg (geometry_msgs.Transform.rotation msg))
                    (Vector3_of_msg (geometry_msgs.Transform.translation msg)), []).
Proof. reflexivity. Qed.

Lemma poseMsgToTF2_eq (msg : geometry_msgs.Pose.t S) :
  tf2.poseMsgToTF2 msg =
    (btTransform_mk (Quaternion_of_msg (geometry_msgs.Pose.orientation msg))
                    (Point_of_msg (geometry_msgs.Pose.position msg)), []).
Proof. reflexivity. Qed.

Lemma transformTF2ToMsg_eq (bt : btTransform) (msg : geometry_msgs.Transform.t S) :
  tf2.transformTF2ToMsg bt msg =
    (r <- tf2.quaternionTF2ToMsg (getRotation bt) (geometry_msgs.Transform.rotation msg) ;;
     ret (geometry_msgs.Transform.mk (msg_of_Vector3 (getOrigin bt)) (snd r))).
Proof.
  unfold tf2.transformTF2ToMsg, tf2.vector3TF2ToMsg. cbn.
  destruct (tf2.quaternionTF2ToMsg _ _) as [[q m] l]. reflexivity.
Qed.

Lemma poseTF2ToMsg_eq (bt : btTransform) (msg : geometry_msgs.Pose.t S) :
  tf2.poseTF2ToMsg bt msg =
    (r <- tf2.quaternionTF2ToMsg (getRotation bt) (geometry_msgs.Pose.orientation msg) ;;
     ret (geometry_msgs.Pose.mk (msg_of_Point (getOrigin bt)) (snd r))).
Proof.
  unfold tf2.poseTF2ToMsg, tf2.pointTF2ToMsg. cbn.
  destruct (tf2.quaternionTF2ToMsg _ _) as [[q m] l]. reflexivity.
Qed.

End TransformBranches.

(** C2, as the code has it.  The test of the squared length is made by
    quaternionMsgToTF2 and quaternionTF2ToMsg, and by the conversions that
    call them: transformTF2ToMsg and poseTF2ToMsg warn and write the
    normalized rotation when the rotation of the transform fails the test.
    transformMsgToTF2 and poseMsgToTF2 make no test: for every message they
    emit no warning and hand the quaternion of the message's fields, as it
    is, to the constructor of the transform. *)
Theorem quaternion_test_only_through_quaternion_conversions :
  (forall (S : Type) (tops : btTransformOps S) (msg : geometry_msgs.Transform.t S),
      tf2.transformMsgToTF2 msg =
        (btTransform_mk (Quaternion_of_msg (geometry_msgs.Transform.rotation msg))
                        (Vector3_of_msg (geometry_msgs.Transform.translation msg)), []))
  /\ (forall (S : Type) (tops : btTransformOps S) (msg : geometry_msgs.Pose.t S),
      tf2.poseMsgToTF2 msg =
        (btTransform_mk (Quaternion_of_msg (geometry_msgs.Pose.orientation msg))
                        (Point_of_msg (geometry_msgs.Pose.position msg)), []))
  /\ (forall (S : Type) (ops : btScalarOps S) (msg : geometry_msgs.Quaternion.t S),
      tf2.not_normalized (Quaternion_of_msg msg) = true ->
      tf2.quaternionMsgToTF2 msg =
        (btQuaternion.normalize (Quaternion_of_msg msg), [MSG_TO_TF2_WARNING]))
  /\ (forall (S : Type) (ops : btScalarOps S) (bt : btQuaternion.t S)
             (msg : geometry_msgs.Quaternion.t S),
      tf2.not_normalized bt = true ->
      tf2.quaternionTF2ToMsg bt msg =
        ((bt, msg_of_Quaternion (btQuaternion.normalize bt)), [TF2_TO_MSG_WARNING]))
  /\ (forall (S : Type) (ops : btScalarOps S) (tops : btTransformOps S)
             (bt : btTransform) (msg : geometry_msgs.Transform.t S),
      tf2.not_normalized (getRotation bt) = true ->
      tf2.transformTF2ToMsg bt msg =
        (geometry_msgs.Transform.mk
           (msg_of_Vector3 (getOrigin bt))
           (msg_of_Quaternion (btQuaternion.normalize (getRotation bt))),
         [TF2_TO_MSG_WARNING]))
  /\ (forall (S : Type) (ops : btScalarOps S) (tops : btTransformOps S)
             (bt : btTransform) (msg : geometry_msgs.Pose.t S),
      tf2.not_normalized (getRotation bt) = true ->
      tf2.poseTF2ToMsg bt msg =
        (geometry_msgs.Pose.mk
           (msg_of_Point (getOrigin bt))
           (msg_of_Quaternion (btQuaternion.normalize (getRotation bt))),
         [TF2_TO_MSG_WARNING])).
Proof.
  repeat split.
  - intros S ops msg Hn. apply quaternionMsgToTF2_warns. exact Hn.
  - intros S ops bt msg Hn. apply quaternionTF2ToMsg_warns. exact Hn.
  - intros S ops tops bt msg Hn.
    rewrite transformTF2ToMsg_eq, (quaternionTF2ToMsg_warns _ _ Hn). reflexivity.
  - intros S ops tops bt msg Hn.
    rewrite poseTF2ToMsg_eq, (quaternionTF2ToMsg_warns _ _ Hn). reflexivity.
Qed.

Lemma quaternion_test_only_through_quaternion_conversions_witness :
  (tf2.quaternionMsgToTF2 (geometry_msgs.Quaternion.mk 1 1 0 0)%float =
     (btQuaternion.normalize (btQuaternion.mk 1 1 0 0)%float, [MSG_TO_TF2_WARNING]))
  /\ (let bt := PairTransform.mk (btQuaternion.mk 1 1 0 0) (btVector3.mk 1 2 3) in
      tf2.transformTF2ToMsg (S:=float) bt
        (geometry_msgs.Transform.mk (geometry_msgs.Vector3.mk 0 0 0)
                                    geometry_msgs.Quaternion.default) =
        (geometry_msgs.Transform.mk
           (geometry_msgs.Vector3.mk 1 2 3)
           (msg_of_Quaternion (btQuaternion.normalize (btQuaternion.mk 1 1 0 0))),
         [TF2_TO_MSG_WARNING]))%float.
Proof.
  pose proof quaternion_test_only_through_quaternion_conversions
    as (_ & _ & Hq & _ & Ht & _).
  split.
  - apply (Hq float double_ops (geometry_msgs.Quaternion.mk 1 1 0 0)%float).
    vm_compute. reflexivity.
  - apply (Ht float double_ops pair_transform_ops
              (PairTransform.mk (btQuaternion.mk 1 1 0 0) (btVector3.mk 1 2 3))%float).
    vm_compute. reflexivity.
Defined.

(** C2 as stated fails at the transform message with translation (0, 0, 0)
    and rotation (1, 1, 0, 0), and at the pose message with the same
    fields: the squared length of the rotation is 2, the quaternion
    conversion would warn and normalize, and transformMsgToTF2 and
    poseMsgToTF2 emit no warning and pass (1, 1, 0, 0) on. *)
Lemma transformMsgToTF2_makes_no_test :
  (let rotation := geometry_msgs.Quaternion.mk 1 1 0 0 in
   tf2.not_normalized (Quaternion_of_msg rotation) = true
   /\ warnings (tf2.quaternionMsgToTF2 rotation) = [MSG_TO_TF2_WARNING]
   /\ tf2.transformMsgToTF2
        (geometry_msgs.Transform.mk (geometry_msgs.Vector3.mk 0 0 0) rotation) =
        (PairTransform.mk (btQuaternion.mk 1 1 0 0) (btVector3.mk 0 0 0), [])
   /\ tf2.poseMsgToTF2
        (geometry_msgs.Pose.mk (geometry_msgs.Point.mk 0 0 0) rotation) =
        (PairTransform.mk (btQuaternion.mk 1 1 0 0) (btVector3.mk 0 0 0), []))%float.
Proof. vm_compute. repeat split; reflexivity. Qed.

(** ** Comparison of stamped values *)

Lemma Time_eqb_eq (a b : ros.Time) : ros.Time_eqb a b = true <-> a = b.
Proof.
  destruct a as [s1 n1], b as [s2 n2]. unfold ros.Time_eqb. simpl.
  rewrite andb_true_iff, !Z.eqb_eq. split.
  - intros [-> ->]. reflexivity.
  - intros E. injection E as -> ->. split; reflexivity.
Qed.

Lemma Stamped_eqb_true {T : Type} `{EqOp T} (a b : tf2.Stamped.t T) :
  tf2.Stamped.eqb a b = true <->
  tf2.Stamped.frame_id_ a = tf2.Stamped.frame_id_ b /\
  tf2.Stamped.stamp_ a = tf2.Stamped.stamp_ b /\
  op_eq (tf2.Stamped.data a) (tf2.Stamped.data b) = true.
Proof.
  unfold tf2.Stamped.eqb.
  rewrite !andb_true_iff, String.eqb_eq, Time_eqb_eq. tauto.
Qed.

Lemma btVector3_eqb_exact (p q : btVector3.t R) : btVector3.eqb p q = true <-> p = q.
Proof.
  destruct p as [x1 y1 z1], q as [x2 y2 z2]. unfold btVector3.eqb. simpl.
  rewrite !andb_true_iff, !Reqb_true. split.
  - intros [[-> ->] ->]. reflexivity.
  - intros E. injection E as -> -> ->. repeat split.
Qed.

(** C6.  operator== on two Stamped<Point> values returns true exactly when
    their frame_id_ are the same string, their stamp_ the same time and
    their points compare equal with the operator== of the point type;
    whenever one of the three differs it returns false.  In exact
    arithmetic the points compare equal exactly when they are the same
    point, so that the operator decides equality of the stamped values. *)
Theorem Stamped_Point_equality :
  (forall (S : Type) (ops : btScalarOps S) (a b : tf2.Stamped.t (@tf2.Point S)),
      tf2.Stamped.eqb a b = true <->
      tf2.Stamped.frame_id_ a = tf2.Stamped.frame_id_ b /\
      tf2.Stamped.stamp_ a = tf2.Stamped.stamp_ b /\
      btVector3.eqb (tf2.Stamped.data a) (tf2.Stamped.data b) = true)
  /\ (forall (S : Type) (ops : btScalarOps S) (a b : tf2.Stamped.t (@tf2.Point S)),
      tf2.Stamped.frame_id_ a <> tf2.Stamped.frame_id_ b \/
      tf2.Stamped.stamp_ a <> tf2.Stamped.stamp_ b \/
      btVector3.eqb (tf2.Stamped.data a) (tf2.Stamped.data b) = false ->
      tf2.Stamped.eqb a b = false)
  /\ (forall a b : tf2.Stamped.t (@tf2.Point R), tf2.Stamped.eqb a b = true <-> a = b).
Proof.
  split; [|split].
  - intros S ops a b. exact (Stamped_eqb_true a b).
  - intros S ops a b Hd.
    destruct (tf2.Stamped.eqb a b) eqn:E; [|reflexivity].
    apply (Stamped_eqb_true a b) in E. destruct E as (Hf & Hs & Hp).
    change (op_eq (tf2.Stamped.data a) (tf2.Stamped.data b))
      with (btVector3.eqb (tf2.Stamped.data a) (tf2.Stamped.data b)) in Hp.
    destruct Hd as [Hd|[Hd|Hd]]; [contradiction|contradiction|congruence].
  - intros a b. rewrite (Stamped_eqb_true a b).
    change (op_eq (tf2.Stamped.data a) (tf2.Stamped.data b))
      with (btVector3.eqb (tf2.Stamped.data a) (tf2.Stamped.data b)).
    rewrite btVector3_eqb_exact.
    destruct a as [pa sa fa], b as [pb sb fb]. simpl. split.
    + intros (-> & -> & ->). reflexivity.
    + intros E. injection E as -> -> ->. repeat split.
Qed.

Lemma Stamped_Point_equality_witness :
  tf2.Stamped.eqb
    (tf2.Stamped.full (btVector3.mk 1 2 3)%float (ros.mkTime 10 0) "map")
    (tf2.Stamped.full (btVector3.mk 1 2 3)%float (ros.mkTime 10 0) "odom") = false.
Proof.
  apply (proj1 (proj2 Stamped_Point_equality) float double_ops).
  left. simpl. discriminate.
Defined.

(** ** Stamped conversions *)

(** C7.  Each stamped conversion is its unstamped conversion on the value
    payload, with the same warnings, followed by the copy of the timestamp
    and of the frame_id; the two StampedTransform conversions copy the
    child_frame_id as well.  A conversion to a message leaves the sequence
    number of the header as it was. *)
Theorem stamped_conversions_delegate :
  forall (S : Type) (ops : btScalarOps S) (tops : btTransformOps S),
    (forall (msg : geometry_msgs.QuaternionStamped.t S) bt,
        tf2.quaternionStampedMsgToTF2 msg bt =
          (q <- tf2.quaternionMsgToTF2 (geometry_msgs.QuaternionStamped.quaternion msg) ;;
           ret (tf2.Stamped.mk q
                  (Header.stamp (geometry_msgs.QuaternionStamped.header msg))
                  (Header.frame_id (geometry_msgs.QuaternionStamped.header msg)))))
    /\ (forall bt (msg : geometry_msgs.QuaternionStamped.t S),
        tf2.quaternionStampedTF2ToMsg bt msg =
          (r <- tf2.quaternionTF2ToMsg (tf2.Stamped.data bt)
                  (geometry_msgs.QuaternionStamped.quaternion msg) ;;
           ret (geometry_msgs.QuaternionStamped.mk
                  (Header.mk (Header.seq (geometry_msgs.QuaternionStamped.header msg))
                             (tf2.Stamped.stamp_ bt) (tf2.Stamped.frame_id_ bt))
                  (snd r))))
    /\ (forall (msg : geometry_msgs.Vector3Stamped.t S) bt,
        tf2.vector3StampedMsgToTF2 msg bt =
          (v <- tf2.vector3MsgToTF2 (geometry_msgs.Vector3Stamped.vector msg) ;;
           ret (tf2.Stamped.mk v
                  (Header.stamp (geometry_msgs.Vector3Stamped.header msg))
                  (Header.frame_id (geometry_msgs.Vector3Stamped.header msg)))))
    /\ (forall bt (msg : geometry_msgs.Vector3Stamped.t S),
        tf2.vector3StampedTF2ToMsg bt msg =
          (v <- tf2.vector3TF2ToMsg (tf2.Stamped.data bt)
                  (geometry_msgs.Vector3Stamped.vector msg) ;;
           ret (geometry_msgs.Vector3Stamped.mk
                  (Header.mk (Header.seq (geometry_msgs.Vector3Stamped.header msg))
                             (tf2.Stamped.stamp_ bt) (tf2.Stamped.frame_id_ bt))
                  v)))
    /\ (forall (msg : geometry_msgs.PointStamped.t S) bt,
        tf2.pointStampedMsgToTF2 msg bt =
          (v <- tf2.pointMsgToTF2 (geometry_msgs.PointStamped.point msg) ;;
           ret (tf2.Stamped.mk v
                  (Header.stamp (geometry_msgs.PointStamped.header msg))
                  (Header.frame_id (geometry_msgs.PointStamped.header msg)))))
    /\ (forall bt (msg : geometry_msgs.PointStamped.t S),
        tf2.pointStampedTF2ToMsg bt msg =
          (v <- tf2.pointTF2ToMsg (tf2.Stamped.data bt)
                  (geometry_msgs.PointStamped.point msg) ;;
           ret (geometry_msgs.PointStamped.mk
                  (Header.mk (Header.seq (geometry_msgs.PointStamped.header msg))
                             (tf2.Stamped.stamp_ bt) (tf2.Stamped.frame_id_ bt))
                  v)))
    /\ (forall (msg : geometry_msgs.PoseStamped.t S) bt,
        tf2.poseStampedMsgToTF2 msg bt =
          (b <- tf2.poseMsgToTF2 (geometry_msgs.PoseStamped.pose msg) ;;
           ret (tf2.Stamped.mk b
                  (Header.stamp (geometry_msgs.PoseStamped.header msg))
                  (Header.frame_id (geometry_msgs.PoseStamped.header msg)))))
    /\ (forall bt (msg : geometry_msgs.PoseStamped.t S),
        tf2.poseStampedTF2ToMsg bt msg =
          (m <- tf2.poseTF2ToMsg (tf2.Stamped.data bt) (geometry_msgs.PoseStamped.pose msg) ;;
           ret (geometry_msgs.PoseStamped.mk
                  (Header.mk (Header.seq (geometry_msgs.PoseStamped.header msg))
                             (tf2.Stamped.stamp_ bt) (tf2.Stamped.frame_id_ bt))
                  m)))
    /\ (forall (msg : geometry_msgs.TransformStamped.t S) bt,
        tf2.transformStampedMsgToTF2 msg bt =
          (b <- tf2.transformMsgToTF2 (geometry_msgs.TransformStamped.transform msg) ;;
           ret (tf2.StampedTransform.mk b
                  (Header.stamp (geometry_msgs.TransformStamped.header msg))
                  (Header.frame_id (geometry_msgs.TransformStamped.header msg))
                  (geometry_msgs.TransformStamped.child_frame_id msg))))
    /\ (forall bt (msg : geometry_msgs.TransformStamped.t S),
        tf2.transformStampedTF2ToMsg bt msg =
          (m <- tf2.transformTF2ToMsg (tf2.StampedTransform.data bt)
                  (geometry_msgs.TransformStamped.transform msg) ;;
           ret (geometry_msgs.TransformStamped.mk
                  (Header.mk (Header.seq (geometry_msgs.TransformStamped.header msg))
                             (tf2.StampedTransform.stamp_ bt) (tf2.StampedTransform.frame_id_ bt))
                  (tf2.StampedTransform.child_frame_id_ bt)
                  m))).
Proof.
  intros S ops tops.
  repeat match goal with |- _ /\ _ => split end.
  - intros msg bt. unfold tf2.quaternionStampedMsgToTF2.
    destruct (tf2.quaternionMsgToTF2 _) as [q l]. reflexivity.
  - intros bt msg. unfold tf2.quaternionStampedTF2ToMsg.
    destruct (tf2.quaternionTF2ToMsg _ _) as [r l]. reflexivity.
  - intros msg bt. reflexivity.
  - intros bt msg. reflexivity.
  - intros msg bt. reflexivity.
  - intros bt msg. reflexivity.
  - intros msg bt. reflexivity.
  - intros bt msg. unfold tf2.poseStampedTF2ToMsg.
    destruct (tf2.poseTF2ToMsg _ _) as [m l]. reflexivity.
  - intros msg bt. reflexivity.
  - intros bt msg. unfold tf2.transformStampedTF2ToMsg.
    destruct (tf2.transformTF2ToMsg _ _) as [m l]. reflexivity.
Qed.

(** ** Default constructions *)

(** C10.  A default-constructed Stamped<T> has the sentinel
    NO_ID_STAMPED_DEFAULT_CONSTRUCTION as its frame_id_; a
    default-constructed StampedTransform has the empty string as its
    frame_id_ and as its child_frame_id_.  The two default constructions
    give different frame identifiers. *)
Theorem default_constructions_differ :
  forall (T U : Type) (t : T) (u : U),
    tf2.Stamped.frame_id_ (tf2.Stamped.default t) = "NO_ID_STAMPED_DEFAULT_CONSTRUCTION"%string
    /\ tf2.StampedTransform.frame_id_ (tf2.StampedTransform.default u) = ""%string
    /\ tf2.StampedTransform.child_frame_id_ (tf2.StampedTransform.default u) = ""%string
    /\ tf2.Stamped.frame_id_ (tf2.Stamped.default t)
       <> tf2.StampedTransform.frame_id_ (tf2.StampedTransform.default u).
Proof.
  intros T U t u. repeat split. simpl. discriminate.
Qed.

(** ** Yaw and the identity rotation, in exact arithmetic *)

Ltac Ratan2_cases :=
  unfold Ratan2;
  repeat match goal with
         | |- context [Rlt_dec ?a ?b] => destruct (Rlt_dec a b)
         | |- context [Rle_dec ?a ?b] => destruct (Rle_dec a b)
         end; try lra.

(** atan2 gives back the angle of a point of the unit circle. *)
Lemma Ratan2_sin_cos (a : R) : (- PI < a <= PI)%R -> Ratan2 (sin a) (cos a) = a.
Proof.
  intros [Hlo Hhi]. pose proof PI_RGT_0 as Hpi.
  destruct (Rtotal_order a (- (PI / 2))) as [Ha|[Ha|Ha]].
  - assert (Hc : (cos a < 0)%R) by (rewrite <- cos_neg; apply cos_lt_0; lra).
    assert (Hs : (sin a < 0)%R) by (apply sin_lt_0_var; lra).
    Ratan2_cases.
    replace (sin a / cos a)%R with (tan (a + PI))
      by (unfold tan; rewrite neg_sin, neg_cos; field; lra).
    rewrite atan_tan by lra. lra.
  - subst a. rewrite sin_neg, cos_neg, sin_PI2, cos_PI2. Ratan2_cases.
  - destruct (Rtotal_order a (PI / 2)) as [Hb|[Hb|Hb]].
    + assert (Hc : (0 < cos a)%R) by (apply cos_gt_0; lra).
      Ratan2_cases. apply atan_tan. lra.
    + subst a. rewrite sin_PI2, cos_PI2. Ratan2_cases.
    + assert (Hc : (cos a < 0)%R) by (apply cos_lt_0; lra).
      assert (Hs : (0 <= sin a)%R) by (apply sin_ge_0; lra).
      Ratan2_cases.
      replace (sin a / cos a)%R with (tan (a - PI))
        by (unfold tan; rewrite sin_minus, cos_minus, sin_PI, cos_PI; field; lra).
      rewrite atan_tan by lra. lra.
Qed.

Lemma createQuaternionFromYaw_exact (yaw : R) :
  tf2.createQuaternionFromYaw yaw =
    btQuaternion.mk 0%R 0%R (sin (yaw / 2)) (cos (yaw / 2)).
Proof.
  unfold tf2.createQuaternionFromYaw, btQuaternion.setRPY. simpl.
  replace (0 * (1 / 2))%R with 0%R by lra.
  replace (yaw * (1 / 2))%R with (yaw / 2)%R by lra.
  rewrite sin_0, cos_0. f_equal; ring.
Qed.

(** The matrix of the quaternion (0, 0, sin h, cos h) is the rotation by
    2h about the Z axis. *)
Lemma setRotation_yaw_quaternion (h : R) :
  btMatrix3x3.setRotation (btQuaternion.mk 0%R 0%R (sin h) (cos h)) = rotZ (2 * h).
Proof.
  unfold btMatrix3x3.setRotation, btQuaternion.length2, btQuaternion.dot, rotZ.
  simpl.
  pose proof (sin2_cos2 h) as Hsc. unfold Rsqr in Hsc.
  replace (0 * 0 + 0 * 0 + sin h * sin h + cos h * cos h)%R with 1%R by lra.
  rewrite sin_2a, cos_2a_sin.
  f_equal; f_equal; field.
Qed.

Lemma getEulerYPR_rotZ (a : R) :
  btMatrix3x3.yaw (btMatrix3x3.getEulerYPR (rotZ a)) = Ratan2 (sin a) (cos a).
Proof.
  unfold btMatrix3x3.getEulerYPR, rotZ. simpl.
  rewrite Rabs_R0.
  replace (Rleb 1 0) with false by (symmetry; apply Rleb_false; lra).
  simpl. rewrite asin_0, Ropp_0, cos_0.
  f_equal; field.
Qed.

Lemma getYaw_createQuaternionFromYaw_eq (yaw : R) :
  tf2.getYaw (tf2.createQuaternionFromYaw yaw) = Ratan2 (sin yaw) (cos yaw).
Proof.
  rewrite createQuaternionFromYaw_exact.
  unfold tf2.getYaw, btMatrix3x3.getRPY.
  rewrite setRotation_yaw_quaternion, getEulerYPR_rotZ.
  replace (2 * (yaw / 2))%R with yaw by lra. reflexivity.
Qed.

Lemma createIdentityQuaternion_exact :
  tf2.createIdentityQuaternion (S:=R) = btQuaternion.mk 0%R 0%R 0%R 1%R.
Proof.
  unfold tf2.createIdentityQuaternion, btQuaternion.setRPY. simpl.
  replace (0 * (1 / 2))%R with 0%R by lra.
  rewrite sin_0, cos_0. f_equal; ring.
Qed.

(** C8.  In exact arithmetic, getYaw of createQuaternionFromYaw(PI/2) is
    PI/2, hence within 1e-6 of it. *)
Theorem getYaw_createQuaternionFromYaw_half_pi :
  tf2.getYaw (tf2.createQuaternionFromYaw (PI / 2)%R) = (PI / 2)%R
  /\ (Rabs (tf2.getYaw (tf2.createQuaternionFromYaw (PI / 2)%R) - PI / 2) <= 1 / 1000000)%R.
Proof.
  assert (E : tf2.getYaw (tf2.createQuaternionFromYaw (PI / 2)%R) = (PI / 2)%R).
  { rewrite getYaw_createQuaternionFromYaw_eq, sin_PI2, cos_PI2. Ratan2_cases. }
  split; [exact E|].
  rewrite E. replace (PI / 2 - PI / 2)%R with 0%R by lra. rewrite Rabs_R0. lra.
Qed.

(** C9.  In exact arithmetic, createIdentityQuaternion is the quaternion
    (0, 0, 0, 1), and rotating a vector by it, by quatRotate or by the
    matrix of the quaternion, gives the vector back. *)
Theorem createIdentityQuaternion_rotates_nothing :
  tf2.createIdentityQuaternion (S:=R) = btQuaternion.mk 0%R 0%R 0%R 1%R
  /\ (forall v : btVector3.t R,
      btQuaternion.quatRotate tf2.createIdentityQuaternion v = v)
  /\ (forall v : btVector3.t R,
      btMatrix3x3.mul_vec (btMatrix3x3.setRotation tf2.createIdentityQuaternion) v = v).
Proof.
  split; [exact createIdentityQuaternion_exact|split].
  - intros [x y z]. rewrite createIdentityQuaternion_exact.
    unfold btQuaternion.quatRotate, btQuaternion.mul, btQuaternion.mul_vec,
      btQuaternion.inverse.
    simpl. f_equal; ring.
  - intros [x y z]. rewrite createIdentityQuaternion_exact.
    unfold btMatrix3x3.mul_vec, btMatrix3x3.setRotation, btVector3.dot,
      btQuaternion.length2, btQuaternion.dot.
    simpl. f_equal; field.
Qed.

(** * Further properties of the conversions *)

(** ** NaN fields in binary64 *)

Lemma nan_mul_l (y : float) : PrimFloat.mul nan y = nan.
Proof. apply Prim2SF_inj. rewrite mul_spec. reflexivity. Qed.

Lemma nan_mul_r (x : float) : PrimFloat.mul x nan = nan.
Proof.
  apply Prim2SF_inj. rewrite mul_spec.
  change (Prim2SF nan) with S754_nan. destruct (Prim2SF x); reflexivity.
Qed.

Lemma nan_add_l (y : float) : PrimFloat.add nan y = nan.
Proof. apply Prim2SF_inj. rewrite add_spec. reflexivity. Qed.

Lemma nan_add_r (x : float) : PrimFloat.add x nan = nan.
Proof.
  apply Prim2SF_inj. rewrite add_spec.
  change (Prim2SF nan) with S754_nan. destruct (Prim2SF x); reflexivity.
Qed.

Lemma nan_sub_l (y : float) : PrimFloat.sub nan y = nan.
Proof. apply Prim2SF_inj. rewrite sub_spec. reflexivity. Qed.

Lemma ltb_nan_r (x : float) : PrimFloat.ltb x nan = false.
Proof.
  rewrite ltb_spec. change (Prim2SF nan) with S754_nan.
  unfold SFltb, SFcompare. destruct (Prim2SF x); reflexivity.
Qed.

Lemma length2_nan (q : btQuaternion.t float) :
  btQuaternion.x q = nan \/ btQuaternion.y q = nan \/
  btQuaternion.z q = nan \/ btQuaternion.w q = nan ->
  btQuaternion.length2 q = nan.
Proof.
  destruct q as [x y z w]. unfold btQuaternion.length2, btQuaternion.dot.
  cbn [btQuaternion.x btQuaternion.y btQuaternion.z btQuaternion.w bt_add bt_mul double_ops].
  intros [ -> | [ -> | [ -> | -> ] ] ];
    repeat (rewrite nan_mul_l || rewrite nan_mul_r || rewrite nan_add_l || rewrite nan_add_r);
    reflexivity.
Qed.

Lemma not_normalized_nan (q : btQuaternion.t float) :
  btQuaternion.length2 q = nan -> tf2.not_normalized q = false.
Proof.
  intros E. unfold tf2.not_normalized. rewrite E.
  cbn [bt_sub bt_ltb btFabs bt_1 double_ops].
  rewrite nan_sub_l. change (abs nan) with nan. apply ltb_nan_r.
Qed.

(** X1.  In binary64 a NaN field is invisible to the test: fabs(NaN - 1) >
    QUATERNION_TOLERANCE is false.  A message with a NaN field is converted
    by quaternionMsgToTF2 without a warning and without normalization, and
    a quaternion with a NaN component is written by quaternionTF2ToMsg
    without a warning, field for field. *)
Theorem quaternion_conversions_pass_nan :
  (forall msg : geometry_msgs.Quaternion.t float,
      geometry_msgs.Quaternion.x msg = nan \/ geometry_msgs.Quaternion.y msg = nan \/
      geometry_msgs.Quaternion.z msg = nan \/ geometry_msgs.Quaternion.w msg = nan ->
      tf2.quaternionMsgToTF2 msg = (Quaternion_of_msg msg, []))
  /\ (forall (bt : btQuaternion.t float) (msg : geometry_msgs.Quaternion.t float),
      btQuaternion.x bt = nan \/ btQuaternion.y bt = nan \/
      btQuaternion.z bt = nan \/ btQuaternion.w bt = nan ->
      tf2.quaternionTF2ToMsg bt msg = ((bt, msg_of_Quaternion bt), [])).
Proof.
  split.
  - intros msg Hnan. apply quaternionMsgToTF2_copies.
    apply not_normalized_nan, length2_nan. exact Hnan.
  - intros bt msg Hnan. apply quaternionTF2ToMsg_copies.
    apply not_normalized_nan, length2_nan. exact Hnan.
Qed.

Lemma quaternion_conversions_pass_nan_witness :
  tf2.quaternionMsgToTF2 (geometry_msgs.Quaternion.mk nan 0 0 1)%float =
    (btQuaternion.mk nan 0 0 1, [])%float.
Proof.
  apply (proj1 quaternion_conversions_pass_nan (geometry_msgs.Quaternion.mk nan 0 0 1)%float).
  left. reflexivity.
Defined.

Section WarningCount.
Context {S : Type} `{btScalarOps S} `{btTransformOps S}.

Lemma quaternionMsgToTF2_warnings (msg : geometry_msgs.Quaternion.t S) :
  warnings (tf2.quaternionMsgToTF2 msg) =
    if tf2.not_normalized (Quaternion_of_msg msg) then [MSG_TO_TF2_WARNING] else [].
Proof.
  destruct (tf2.not_normalized (Quaternion_of_msg msg)) eqn:Hn.
  - rewrite (quaternionMsgToTF2_warns msg Hn). reflexivity.
  - rewrite (quaternionMsgToTF2_copies msg Hn). reflexivity.
Qed.

Lemma quaternionTF2ToMsg_warnings (bt : btQuaternion.t S) (msg : geometry_msgs.Quaternion.t S) :
  warnings (tf2.quaternionTF2ToMsg bt msg) =
    if tf2.not_normalized bt then [TF2_TO_MSG_WARNING] else [].
Proof.
  destruct (tf2.not_normalized bt) eqn:Hn.
  - rewrite (quaternionTF2ToMsg_warns bt msg Hn). reflexivity.
  - rewrite (quaternionTF2ToMsg_copies bt msg Hn). reflexivity.
Qed.

Lemma warnings_bind_ret {A B : Type} (m : Console A) (f : A -> B) :
  warnings (x <- m ;; ret (f x)) = warnings m.
Proof. destruct m as [a l]. unfold bind, ret, warnings. simpl. apply app_nil_r. Qed.

Lemma value_bind_ret {A B : Type} (m : Console A) (f : A -> B) :
  value (x <- m ;; ret (f x)) = f (value m).
Proof. destruct m as [a l]. reflexivity. Qed.

End WarningCount.

(** X2.  No conversion emits more than one warning.  The eight conversions
    that reach quaternionMsgToTF2 or quaternionTF2ToMsg emit the one
    warning of that function exactly when the quaternion they pass fails
    the test; the twelve others never emit any. *)
Theorem conversions_warn_at_most_once :
  forall (S : Type) (ops : btScalarOps S) (tops : btTransformOps S),
    (forall msg : geometry_msgs.Quaternion.t S,
        warnings (tf2.quaternionMsgToTF2 msg) =
          if tf2.not_normalized (Quaternion_of_msg msg) then [MSG_TO_TF2_WARNING] else [])
    /\ (forall bt (msg : geometry_msgs.Quaternion.t S),
        warnings (tf2.quaternionTF2ToMsg bt msg) =
          if tf2.not_normalized bt then [TF2_TO_MSG_WARNING] else [])
    /\ (forall (msg : geometry_msgs.QuaternionStamped.t S) bt,
        warnings (tf2.quaternionStampedMsgToTF2 msg bt) =
          if tf2.not_normalized (Quaternion_of_msg (geometry_msgs.QuaternionStamped.quaternion msg))
          then [MSG_TO_TF2_WARNING] else [])
    /\ (forall bt (msg : geometry_msgs.QuaternionStamped.t S),
        warnings (tf2.quaternionStampedTF2ToMsg bt msg) =
          if tf2.not_normalized (tf2.Stamped.data bt) then [TF2_TO_MSG_WARNING] else [])
    /\ (forall bt (msg : geometry_msgs.Transform.t S),
        warnings (tf2.transformTF2ToMsg bt msg) =
          if tf2.not_normalized (getRotation bt) then [TF2_TO_MSG_WARNING] else [])
    /\ (forall bt (msg : geometry_msgs.Pose.t S),
        warnings (tf2.poseTF2ToMsg bt msg) =
          if tf2.not_normalized (getRotation bt) then [TF2_TO_MSG_WARNING] else [])
    /\ (forall bt (msg : geometry_msgs.TransformStamped.t S),
        warnings (tf2.transformStampedTF2ToMsg bt msg) =
          if tf2.not_normalized (getRotation (tf2.StampedTransform.data bt))
          then [TF2_TO_MSG_WARNING] else [])
    /\ (forall bt (msg : geometry_msgs.PoseStamped.t S),
        warnings (tf2.poseStampedTF2ToMsg bt msg) =
          if tf2.not_normalized (getRotation (tf2.Stamped.data bt))
          then [TF2_TO_MSG_WARNING] else [])
    /\ (forall msg : geometry_msgs.Vector3.t S, warnings (tf2.vector3MsgToTF2 msg) = [])
    /\ (forall bt (msg : geometry_msgs.Vector3.t S), warnings (tf2.vector3TF2ToMsg bt msg) = [])
    /\ (forall (msg : geometry_msgs.Vector3Stamped.t S) bt,
        warnings (tf2.vector3StampedMsgToTF2 msg bt) = [])
    /\ (forall bt (msg : geometry_msgs.Vector3Stamped.t S),
        warnings (tf2.vector3StampedTF2ToMsg bt msg) = [])
    /\ (forall msg : geometry_msgs.Point.t S, warnings (tf2.pointMsgToTF2 msg) = [])
    /\ (forall bt (msg : geometry_msgs.Point.t S), warnings (tf2.pointTF2ToMsg bt msg) = [])
    /\ (forall (msg : geometry_msgs.PointStamped.t S) bt,
        warnings (tf2.pointStampedMsgToTF2 msg bt) = [])
    /\ (forall bt (msg : geometry_msgs.PointStamped.t S),
        warnings (tf2.pointStampedTF2ToMsg bt msg) = [])
    /\ (forall msg : geometry_msgs.Transform.t S, warnings (tf2.transformMsgToTF2 msg) = [])
    /\ (forall msg : geometry_msgs.Pose.t S, warnings (tf2.poseMsgToTF2 msg) = [])
    /\ (forall (msg : geometry_msgs.TransformStamped.t S) bt,
        warnings (tf2.transformStampedMsgToTF2 msg bt) = [])
    /\ (forall (msg : geometry_msgs.PoseStamped.t S) bt,
        warnings (tf2.poseStampedMsgToTF2 msg bt) = []).
Proof.
  intros S ops tops.
  repeat match goal with |- _ /\ _ => split end; try (intros; reflexivity).
  - apply quaternionMsgToTF2_warnings.
  - apply quaternionTF2ToMsg_warnings.
  - intros msg bt. rewrite <- quaternionMsgToTF2_warnings.
    unfold tf2.quaternionStampedMsgToTF2.
    destruct (tf2.quaternionMsgToTF2 _) as [q l]. simpl. apply app_nil_r.
  - intros bt msg.
    rewrite <- (quaternionTF2ToMsg_warnings _ (geometry_msgs.QuaternionStamped.quaternion msg)).
    unfold tf2.quaternionStampedTF2ToMsg.
    destruct (tf2.quaternionTF2ToMsg _ _) as [q l]. simpl. apply app_nil_r.
  - intros bt msg.
    rewrite <- (quaternionTF2ToMsg_warnings _ (geometry_msgs.Transform.rotation msg)).
    rewrite transformTF2ToMsg_eq. apply warnings_bind_ret.
  - intros bt msg.
    rewrite <- (quaternionTF2ToMsg_warnings _ (geometry_msgs.Pose.orientation msg)).
    rewrite poseTF2ToMsg_eq. apply warnings_bind_ret.
  - intros bt msg.
    rewrite <- (quaternionTF2ToMsg_warnings _
                  (geometry_msgs.Transform.rotation (geometry_msgs.TransformStamped.transform msg))).
    unfold tf2.transformStampedTF2ToMsg. rewrite transformTF2ToMsg_eq.
    destruct (tf2.quaternionTF2ToMsg _ _) as [q l]. simpl. rewrite !app_nil_r. reflexivity.
  - intros bt msg.
    rewrite <- (quaternionTF2ToMsg_warnings _
                  (geometry_msgs.Pose.orientation (geometry_msgs.PoseStamped.pose msg))).
    unfold tf2.poseStampedTF2ToMsg. rewrite poseTF2ToMsg_eq.
    destruct (tf2.quaternionTF2ToMsg _ _) as [q l]. simpl. rewrite !app_nil_r. reflexivity.
Qed.

(** X3.  Nothing of what an out-parameter held before the call survives
    it, with one exception.  The result of a conversion to an unstamped
    message does not depend on the message written into, and the result of
    a conversion to a stamped value does not depend on the value written
    into.  A conversion to a stamped message keeps the sequence number of
    the header and nothing else: two messages with the same header.seq give
    the same result. *)
Theorem conversions_overwrite_their_output :
  forall (S : Type) (ops : btScalarOps S) (tops : btTransformOps S),
    (forall bt (msg1 msg2 : geometry_msgs.Quaternion.t S),
        tf2.quaternionTF2ToMsg bt msg1 = tf2.quaternionTF2ToMsg bt msg2)
    /\ (forall bt (msg1 msg2 : geometry_msgs.Vector3.t S),
        tf2.vector3TF2ToMsg bt msg1 = tf2.vector3TF2ToMsg bt msg2)
    /\ (forall bt (msg1 msg2 : geometry_msgs.Point.t S),
        tf2.pointTF2ToMsg bt msg1 = tf2.pointTF2ToMsg bt msg2)
    /\ (forall bt (msg1 msg2 : geometry_msgs.Transform.t S),
        tf2.transformTF2ToMsg bt msg1 = tf2.transformTF2ToMsg bt msg2)
    /\ (forall bt (msg1 msg2 : geometry_msgs.Pose.t S),
        tf2.poseTF2ToMsg bt msg1 = tf2.poseTF2ToMsg bt msg2)
    /\ (forall (msg : geometry_msgs.QuaternionStamped.t S) bt1 bt2,
        tf2.quaternionStampedMsgToTF2 msg bt1 = tf2.quaternionStampedMsgToTF2 msg bt2)
    /\ (forall (msg : geometry_msgs.Vector3Stamped.t S) bt1 bt2,
        tf2.vector3StampedMsgToTF2 msg bt1 = tf2.vector3StampedMsgToTF2 msg bt2)
    /\ (forall (msg : geometry_msgs.PointStamped.t S) bt1 bt2,
        tf2.pointStampedMsgToTF2 msg bt1 = tf2.pointStampedMsgToTF2 msg bt2)
    /\ (forall (msg : geometry_msgs.PoseStamped.t S) bt1 bt2,
        tf2.poseStampedMsgToTF2 msg bt1 = tf2.poseStampedMsgToTF2 msg bt2)
    /\ (forall (msg : geometry_msgs.TransformStamped.t S) bt1 bt2,
        tf2.transformStampedMsgToTF2 msg bt1 = tf2.transformStampedMsgToTF2 msg bt2)
    /\ (forall bt (msg1 msg2 : geometry_msgs.QuaternionStamped.t S),
        Header.seq (geometry_msgs.QuaternionStamped.header msg1) =
        Header.seq (geometry_msgs.QuaternionStamped.header msg2) ->
        tf2.quaternionStampedTF2ToMsg bt msg1 = tf2.quaternionStampedTF2ToMsg bt msg2)
    /\ (forall bt (msg1 msg2 : geometry_msgs.Vector3Stamped.t S),
        Header.seq (geometry_msgs.Vector3Stamped.header msg1) =
        Header.seq (geometry_msgs.Vector3Stamped.header msg2) ->
        tf2.vector3StampedTF2ToMsg bt msg1 = tf2.vector3StampedTF2ToMsg bt msg2)
    /\ (forall bt (msg1 msg2 : geometry_msgs.PointStamped.t S),
        Header.seq (geometry_msgs.PointStamped.header msg1) =
        Header.seq (geometry_msgs.PointStamped.header msg2) ->
        tf2.pointStampedTF2ToMsg bt msg1 = tf2.pointStampedTF2ToMsg bt msg2)
    /\ (forall bt (msg1 msg2 : geometry_msgs.PoseStamped.t S),
        Header.seq (geometry_msgs.PoseStamped.header msg1) =
        Header.seq (geometry_msgs.PoseStamped.header msg2) ->
        tf2.poseStampedTF2ToMsg bt msg1 = tf2.poseStampedTF2ToMsg bt msg2)
    /\ (forall bt (msg1 msg2 : geometry_msgs.TransformStamped.t S),
        Header.seq (geometry_msgs.TransformStamped.header msg1) =
        Header.seq (geometry_msgs.TransformStamped.header msg2) ->
        tf2.transformStampedTF2ToMsg bt msg1 = tf2.transformStampedTF2ToMsg bt msg2).
Proof.
  intros S ops tops.
  assert (Hq : forall bt (msg1 msg2 : geometry_msgs.Quaternion.t S),
             tf2.quaternionTF2ToMsg bt msg1 = tf2.quaternionTF2ToMsg bt msg2).
  { intros bt msg1 msg2. unfold tf2.quaternionTF2ToMsg.
    destruct (tf2.not_normalized bt); reflexivity. }
  assert (Ht : forall bt (msg1 msg2 : geometry_msgs.Transform.t S),
             tf2.transformTF2ToMsg bt msg1 = tf2.transformTF2ToMsg bt msg2).
  { intros bt msg1 msg2. rewrite !transformTF2ToMsg_eq.
    rewrite (Hq _ (geometry_msgs.Transform.rotation msg1) (geometry_msgs.Transform.rotation msg2)).
    reflexivity. }
  assert (Hp : forall bt (msg1 msg2 : geometry_msgs.Pose.t S),
             tf2.poseTF2ToMsg bt msg1 = tf2.poseTF2ToMsg bt msg2).
  { intros bt msg1 msg2. rewrite !poseTF2ToMsg_eq.
    rewrite (Hq _ (geometry_msgs.Pose.orientation msg1) (geometry_msgs.Pose.orientation msg2)).
    reflexivity. }
  repeat match goal with |- _ /\ _ => split end; try assumption; try (intros; reflexivity).
  - intros bt [[s1 t1 f1] q1] [[s2 t2 f2] q2] Hseq. simpl in Hseq. subst s2.
    unfold tf2.quaternionStampedTF2ToMsg. cbn. rewrite (Hq _ q1 q2).
    destruct (tf2.quaternionTF2ToMsg _ _) as [r l]. reflexivity.
  - intros bt [[s1 t1 f1] q1] [[s2 t2 f2] q2] Hseq. simpl in Hseq. subst s2. reflexivity.
  - intros bt [[s1 t1 f1] q1] [[s2 t2 f2] q2] Hseq. simpl in Hseq. subst s2. reflexivity.
  - intros bt [[s1 t1 f1] q1] [[s2 t2 f2] q2] Hseq. simpl in Hseq. subst s2.
    unfold tf2.poseStampedTF2ToMsg. cbn [geometry_msgs.PoseStamped.pose]. rewrite (Hp _ q1 q2).
    destruct (tf2.poseTF2ToMsg _ _) as [r l]. reflexivity.
  - intros bt [[s1 t1 f1] c1 q1] [[s2 t2 f2] c2 q2] Hseq. simpl in Hseq. subst s2.
    unfold tf2.transformStampedTF2ToMsg. cbn [geometry_msgs.TransformStamped.transform]. rewrite (Ht _ q1 q2).
    destruct (tf2.transformTF2ToMsg _ _) as [r l]. reflexivity.
Qed.

Lemma conversions_overwrite_their_output_witness :
  let bt := tf2.Stamped.full (btVector3.mk 1 2 3)%float (ros.mkTime 10 0) "map" in
  tf2.vector3StampedTF2ToMsg bt
    (geometry_msgs.Vector3Stamped.mk (Header.mk 7 (ros.mkTime 1 1) "a")
                                     (geometry_msgs.Vector3.mk 4 5 6)%float) =
  tf2.vector3StampedTF2ToMsg bt
    (geometry_msgs.Vector3Stamped.mk (Header.mk 7 (ros.mkTime 2 2) "b")
                                     (geometry_msgs.Vector3.mk 7 8 9)%float).
Proof.
  pose proof (@conversions_overwrite_their_output float double_ops pair_transform_ops) as H.
  apply H. reflexivity.
Defined.

(** X4.  operator== on StampedTransform returns true exactly when the two
    frame_id_, the two child_frame_id_ and the two stamp_ are the same and
    the transforms compare equal; two values whose child_frame_id_ differ
    compare unequal. *)
Theorem StampedTransform_equality :
  forall (T : Type) (eqT : EqOp T) (a b : tf2.StampedTransform.t T),
    (tf2.StampedTransform.eqb a b = true <->
     tf2.StampedTransform.frame_id_ a = tf2.StampedTransform.frame_id_ b /\
     tf2.StampedTransform.child_frame_id_ a = tf2.StampedTransform.child_frame_id_ b /\
     tf2.StampedTransform.stamp_ a = tf2.StampedTransform.stamp_ b /\
     op_eq (tf2.StampedTransform.data a) (tf2.StampedTransform.data b) = true)
    /\ (tf2.StampedTransform.child_frame_id_ a <> tf2.StampedTransform.child_frame_id_ b ->
        tf2.StampedTransform.eqb a b = false).
Proof.
  intros T eqT a b.
  assert (E : tf2.StampedTransform.eqb a b = true <->
     tf2.StampedTransform.frame_id_ a = tf2.StampedTransform.frame_id_ b /\
     tf2.StampedTransform.child_frame_id_ a = tf2.StampedTransform.child_frame_id_ b /\
     tf2.StampedTransform.stamp_ a = tf2.StampedTransform.stamp_ b /\
     op_eq (tf2.StampedTransform.data a) (tf2.StampedTransform.data b) = true).
  { unfold tf2.StampedTransform.eqb.
    rewrite !andb_true_iff, !String.eqb_eq, Time_eqb_eq. tauto. }
  split; [exact E|].
  intros Hc. destruct (tf2.StampedTransform.eqb a b); [|reflexivity].
  exfalso. apply Hc. apply E. reflexivity.
Qed.

Lemma StampedTransform_equality_witness :
  tf2.StampedTransform.eqb
    (tf2.StampedTransform.full (btVector3.mk 1 2 3)%float (ros.mkTime 10 0) "map" "base")
    (tf2.StampedTransform.full (btVector3.mk 1 2 3)%float (ros.mkTime 10 0) "map" "laser")
  = false.
Proof.
  apply (proj2 (@StampedTransform_equality _ _ _ _)). simpl. discriminate.
Defined.

(** X5.  Round trips of the stamped vectors and points.  From a message to
    the stamped value and back, the payload, the timestamp and the frame_id
    are those of the message, and the sequence number is the one of the
    message written into, not the one of the message read.  From a stamped
    value to a message and back, the stamped value is the one started
    from.  No warning is emitted. *)
Theorem stamped_vector_point_round_trips :
  forall (S : Type),
    (forall (msg out : geometry_msgs.Vector3Stamped.t S) bt0,
        (bt <- tf2.vector3StampedMsgToTF2 msg bt0 ;; tf2.vector3StampedTF2ToMsg bt out) =
          (geometry_msgs.Vector3Stamped.mk
             (Header.mk (Header.seq (geometry_msgs.Vector3Stamped.header out))
                        (Header.stamp (geometry_msgs.Vector3Stamped.header msg))
                        (Header.frame_id (geometry_msgs.Vector3Stamped.header msg)))
             (geometry_msgs.Vector3Stamped.vector msg), []))
    /\ (forall (msg out : geometry_msgs.PointStamped.t S) bt0,
        (bt <- tf2.pointStampedMsgToTF2 msg bt0 ;; tf2.pointStampedTF2ToMsg bt out) =
          (geometry_msgs.PointStamped.mk
             (Header.mk (Header.seq (geometry_msgs.PointStamped.header out))
                        (Header.stamp (geometry_msgs.PointStamped.header msg))
                        (Header.frame_id (geometry_msgs.PointStamped.header msg)))
             (geometry_msgs.PointStamped.point msg), []))
    /\ (forall (bt bt0 : tf2.Stamped.t (btVector3.t S)) (out : geometry_msgs.Vector3Stamped.t S),
        (msg <- tf2.vector3StampedTF2ToMsg bt out ;; tf2.vector3StampedMsgToTF2 msg bt0) = (bt, []))
    /\ (forall (bt bt0 : tf2.Stamped.t (btVector3.t S)) (out : geometry_msgs.PointStamped.t S),
        (msg <- tf2.pointStampedTF2ToMsg bt out ;; tf2.pointStampedMsgToTF2 msg bt0) = (bt, [])).
Proof.
  intros S. repeat match goal with |- _ /\ _ => split end.
  - intros [h [x y z]] out bt0. reflexivity.
  - intros [h [x y z]] out bt0. reflexivity.
  - intros [[x y z] t f] bt0 out. reflexivity.
  - intros [[x y z] t f] bt0 out. reflexivity.
Qed.

Section StampedQuaternion.
Context {S : Type} `{btScalarOps S}.

Lemma quaternionStampedMsgToTF2_eq (msg : geometry_msgs.QuaternionStamped.t S) bt :
  tf2.quaternionStampedMsgToTF2 msg bt =
    (q <- tf2.quaternionMsgToTF2 (geometry_msgs.QuaternionStamped.quaternion msg) ;;
     ret (tf2.Stamped.mk q
            (Header.stamp (geometry_msgs.QuaternionStamped.header msg))
            (Header.frame_id (geometry_msgs.QuaternionStamped.header msg)))).
Proof.
  unfold tf2.quaternionStampedMsgToTF2.
  destruct (tf2.quaternionMsgToTF2 _) as [q l]. reflexivity.
Qed.

Lemma quaternionStampedTF2ToMsg_eq bt (msg : geometry_msgs.QuaternionStamped.t S) :
  tf2.quaternionStampedTF2ToMsg bt msg =
    (r <- tf2.quaternionTF2ToMsg (tf2.Stamped.data bt)
            (geometry_msgs.QuaternionStamped.quaternion msg) ;;
     ret (geometry_msgs.QuaternionStamped.mk
            (Header.mk (Header.seq (geometry_msgs.QuaternionStamped.header msg))
                       (tf2.Stamped.stamp_ bt) (tf2.Stamped.frame_id_ bt))
            (snd r))).
Proof.
  unfold tf2.quaternionStampedTF2ToMsg.
  destruct (tf2.quaternionTF2ToMsg _ _) as [r l]. reflexivity.
Qed.

End StampedQuaternion.

(** X6.  A Stamped<Quaternion> whose squared length is within 0.1 of 1,
    written to a QuaternionStamped message and read back, is the stamped
    value started from, and no warning is emitted. *)
Theorem stamped_quaternion_round_trip (S : Type) (ops : btScalarOps S) (tenth : btTenth S)
    (law : btTenthBelowTolerance S)
    (bt bt0 : tf2.Stamped.t (btQuaternion.t S)) (out : geometry_msgs.QuaternionStamped.t S) :
  bt_leb (btFabs (bt_sub (btQuaternion.length2 (tf2.Stamped.data bt)) bt_1)) bt_tenth = true ->
  (msg <- tf2.quaternionStampedTF2ToMsg bt out ;; tf2.quaternionStampedMsgToTF2 msg bt0)
  = (bt, []).
Proof.
  intros Hdev. destruct bt as [[x y z w] t f].
  cbn [tf2.Stamped.data] in Hdev.
  assert (Hn : tf2.not_normalized (btQuaternion.mk x y z w) = false)
    by (apply tenth_below_tolerance; exact Hdev).
  rewrite quaternionStampedTF2ToMsg_eq. cbn [tf2.Stamped.data].
  rewrite (quaternionTF2ToMsg_copies _ _ Hn).
  unfold bind at 2. unfold ret at 1. unfold bind at 1.
  rewrite quaternionStampedMsgToTF2_eq.
  unfold msg_of_Quaternion.
  cbn [geometry_msgs.QuaternionStamped.quaternion snd
       btQuaternion.x btQuaternion.y btQuaternion.z btQuaternion.w].
  rewrite (quaternionMsgToTF2_copies (geometry_msgs.Quaternion.mk x y z w) Hn).
  reflexivity.
Qed.

Lemma stamped_quaternion_round_trip_witness :
  let bt := tf2.Stamped.full (btQuaternion.mk 0.5 0.5 0.5 0.5)%float (ros.mkTime 10 0) "map" in
  (msg <- tf2.quaternionStampedTF2ToMsg bt
            (geometry_msgs.QuaternionStamped.mk (Header.mk 0 ros.Time_default "")
                                                geometry_msgs.Quaternion.default) ;;
   tf2.quaternionStampedMsgToTF2 msg (tf2.Stamped.default (btQuaternion.mk 0 0 0 0)%float))
  = (bt, []).
Proof.
  apply (@stamped_quaternion_round_trip float double_ops double_tenth double_tenth_below_tolerance).
  vm_compute. reflexivity.
Defined.

(** X7.  A Transform message converted to a transform and back has the
    translation it had, and a Pose message the position it had, whatever
    the rotation is and whether or not it is normalized, for every
    transform type whose getOrigin returns the vector its constructor was
    given. *)
Theorem transform_translation_round_trip (S : Type) (ops : btScalarOps S)
    (tops : btTransformOps S) :
  (forall q v, getOrigin (btTransform_mk q v) = v) ->
  (forall msg out : geometry_msgs.Transform.t S,
      geometry_msgs.Transform.translation
        (value (bt <- tf2.transformMsgToTF2 msg ;; tf2.transformTF2ToMsg bt out))
      = geometry_msgs.Transform.translation msg)
  /\ (forall msg out : geometry_msgs.Pose.t S,
      geometry_msgs.Pose.position
        (value (bt <- tf2.poseMsgToTF2 msg ;; tf2.poseTF2ToMsg bt out))
      = geometry_msgs.Pose.position msg).
Proof.
  intros Horigin. split.
  - intros [[x y z] r] out. rewrite transformMsgToTF2_eq. unfold bind at 1.
    rewrite transformTF2ToMsg_eq.
    destruct (tf2.quaternionTF2ToMsg _ _) as [q l]. cbn. rewrite Horigin. reflexivity.
  - intros [[x y z] r] out. rewrite poseMsgToTF2_eq. unfold bind at 1.
    rewrite poseTF2ToMsg_eq.
    destruct (tf2.quaternionTF2ToMsg _ _) as [q l]. cbn. rewrite Horigin. reflexivity.
Qed.

Lemma transform_translation_round_trip_witness :
  let msg := (geometry_msgs.Transform.mk (geometry_msgs.Vector3.mk 1 2 3)
                                         (geometry_msgs.Quaternion.mk 1 1 0 0))%float in
  geometry_msgs.Transform.translation
    (value (bt <- tf2.transformMsgToTF2 msg ;; tf2.transformTF2ToMsg bt msg))
  = (geometry_msgs.Vector3.mk 1 2 3)%float.
Proof.
  apply (proj1 (@transform_translation_round_trip float double_ops pair_transform_ops
                  (fun q v => eq_refl))).
Defined.

(** ** Exact arithmetic: repair, angles and scale *)

Section ExactArithmetic.
Local Open Scope R_scope.

(** The components setRPY computes, with the half angles written as
    divisions. *)
Lemma setRPY_exact (roll pitch yaw : R) :
  btQuaternion.setRPY roll pitch yaw =
    let sr := sin (roll / 2) in let cr := cos (roll / 2) in
    let sp := sin (pitch / 2) in let cp := cos (pitch / 2) in
    let sy := sin (yaw / 2) in let cy := cos (yaw / 2) in
    btQuaternion.mk (sr * cp * cy - cr * sp * sy) (cr * sp * cy + sr * cp * sy)
                    (cr * cp * sy - sr * sp * cy) (cr * cp * cy + sr * sp * sy).
Proof.
  unfold btQuaternion.setRPY. simpl.
  replace (roll * (1 / 2)) with (roll / 2) by lra.
  replace (pitch * (1 / 2)) with (pitch / 2) by lra.
  replace (yaw * (1 / 2)) with (yaw / 2) by lra.
  reflexivity.
Qed.

Lemma sin2_cos2_half (a : R) : sin (a / 2) * sin (a / 2) + cos (a / 2) * cos (a / 2) = 1.
Proof. pose proof (sin2_cos2 (a / 2)) as H. unfold Rsqr in H. exact H. Qed.

Lemma length2_setRPY (roll pitch yaw : R) :
  btQuaternion.length2 (btQuaternion.setRPY roll pitch yaw) = 1.
Proof.
  rewrite setRPY_exact. cbv zeta.
  unfold btQuaternion.length2, btQuaternion.dot. simpl.
  set (sr := sin (roll / 2)). set (cr := cos (roll / 2)).
  set (sp := sin (pitch / 2)). set (cp := cos (pitch / 2)).
  set (sy := sin (yaw / 2)). set (cy := cos (yaw / 2)).
  transitivity ((sr * sr + cr * cr) * (sp * sp + cp * cp) * (sy * sy + cy * cy)).
  - ring.
  - unfold sr, cr, sp, cp, sy, cy. rewrite !sin2_cos2_half. ring.
Qed.

Lemma not_normalized_unit (q : btQuaternion.t R) :
  btQuaternion.length2 q = 1 -> tf2.not_normalized q = false.
Proof.
  intros E. unfold tf2.not_normalized. rewrite E. simpl.
  apply Rltb_false. replace (1 - 1) with 0 by lra. rewrite Rabs_R0. lra.
Qed.

Lemma sin_half_double (a : R) : sin a = 2 * sin (a / 2) * cos (a / 2).
Proof. rewrite <- sin_2a. f_equal. lra. Qed.

Lemma cos_half_double (a : R) : cos a = cos (a / 2) * cos (a / 2) - sin (a / 2) * sin (a / 2).
Proof. rewrite <- cos_2a. f_equal. lra. Qed.

(** The matrix of setRPY: its first column and its last row. *)
Lemma setRotation_setRPY (roll pitch yaw : R) :
  let m := btMatrix3x3.setRotation (btQuaternion.setRPY roll pitch yaw) in
  btVector3.x (btMatrix3x3.row0 m) = cos yaw * cos pitch /\
  btVector3.x (btMatrix3x3.row1 m) = sin yaw * cos pitch /\
  btVector3.x (btMatrix3x3.row2 m) = - sin pitch /\
  btVector3.y (btMatrix3x3.row2 m) = cos pitch * sin roll /\
  btVector3.z (btMatrix3x3.row2 m) = cos pitch * cos roll.
Proof.
  cbv zeta. unfold btMatrix3x3.setRotation. rewrite length2_setRPY.
  rewrite setRPY_exact. cbv zeta. simpl.
  rewrite (sin_half_double pitch), (cos_half_double pitch),
          (sin_half_double yaw), (cos_half_double yaw),
          (sin_half_double roll), (cos_half_double roll).
  pose proof (sin2_cos2_half roll) as Hr.
  pose proof (sin2_cos2_half pitch) as Hp.
  pose proof (sin2_cos2_half yaw) as Hy.
  set (sr := sin (roll / 2)) in *. set (cr := cos (roll / 2)) in *.
  set (sp := sin (pitch / 2)) in *. set (cp := cos (pitch / 2)) in *.
  set (sy := sin (yaw / 2)) in *. set (cy := cos (yaw / 2)) in *.
  repeat split.
  - transitivity ((cy * cy - sy * sy) * (cp * cp - sp * sp) * (sr * sr + cr * cr)
                  + (1 - (sr * sr + cr * cr) * (sp * sp + cp * cp) * (sy * sy + cy * cy))).
    + field.
    + rewrite Hr, Hp, Hy. ring.
  - transitivity ((2 * sy * cy) * (cp * cp - sp * sp) * (sr * sr + cr * cr)).
    + field.
    + rewrite Hr. ring.
  - transitivity (- (2 * sp * cp) * ((sr * sr + cr * cr) * (sy * sy + cy * cy))).
    + field.
    + rewrite Hr, Hy. ring.
  - transitivity ((cp * cp - sp * sp) * (2 * sr * cr) * (sy * sy + cy * cy)).
    + field.
    + rewrite Hy. ring.
  - transitivity ((cp * cp - sp * sp) * (cr * cr - sr * sr) * (sy * sy + cy * cy)
                  + (1 - (sr * sr + cr * cr) * (sp * sp + cp * cp) * (sy * sy + cy * cy))).
    + field.
    + rewrite Hr, Hp, Hy. ring.
Qed.

Lemma abs_sin_lt_1 (p : R) : - (PI / 2) < p < PI / 2 -> Rabs (sin p) < 1.
Proof.
  intros Hp. assert (Hc : 0 < cos p) by (apply cos_gt_0; lra).
  pose proof (sin2_cos2 p) as H. unfold Rsqr in H.
  apply Rabs_def1; nra.
Qed.

Lemma getEulerYPR_setRPY (roll pitch yaw : R) :
  - (PI / 2) < pitch < PI / 2 ->
  btMatrix3x3.getEulerYPR (btMatrix3x3.setRotation (btQuaternion.setRPY roll pitch yaw)) =
    btMatrix3x3.mkEuler (Ratan2 (sin yaw) (cos yaw)) pitch (Ratan2 (sin roll) (cos roll)).
Proof.
  intros Hp.
  destruct (setRotation_setRPY roll pitch yaw) as (H0 & H1 & H2 & H3 & H4).
  cbv zeta in *.
  assert (Hc : 0 < cos pitch) by (apply cos_gt_0; lra).
  pose proof (abs_sin_lt_1 Hp) as Hs.
  unfold btMatrix3x3.getEulerYPR.
  rewrite H0, H1, H2, H3, H4. simpl.
  rewrite Rabs_Ropp.
  replace (Rleb 1 (Rabs (sin pitch))) with false by (symmetry; apply Rleb_false; lra).
  rewrite asin_opp, Ropp_involutive, asin_sin by lra.
  f_equal; f_equal; field; lra.
Qed.

Lemma getEulerYPR_gimbal (m : btMatrix3x3.t R) :
  Rabs (btVector3.x (btMatrix3x3.row2 m)) = 1 ->
  btMatrix3x3.yaw (btMatrix3x3.getEulerYPR m) = 0.
Proof.
  intros H1. unfold btMatrix3x3.getEulerYPR.
  cbn [bt_leb bt_ltb btFabs bt_1 bt_0 exact_ops]. rewrite H1.
  replace (Rleb 1 1) with true by (symmetry; apply Rleb_true; lra).
  destruct (Rltb (btVector3.x (btMatrix3x3.row2 m)) 0); reflexivity.
Qed.

Lemma Ratan2_range (y x : R) : - PI < Ratan2 y x <= PI.
Proof.
  pose proof PI_RGT_0 as Hpi.
  pose proof (atan_bound (y / x)) as Hb.
  unfold Ratan2.
  destruct (Rlt_dec 0 x) as [Hx|Hx]; [lra|].
  destruct (Rlt_dec x 0) as [Hx'|Hx'].
  - destruct (Rle_dec 0 y) as [Hy|Hy].
    + assert (y / x <= 0).
      { unfold Rdiv. assert (/ x < 0) by (apply Rinv_lt_0_compat; exact Hx'). nra. }
      assert (atan (y / x) <= 0).
      { destruct (Req_dec (y / x) 0) as [->|Hne]; [rewrite atan_0; lra|].
        apply Rlt_le. rewrite <- atan_0. apply atan_increasing. lra. }
      lra.
    + assert (0 < y / x).
      { unfold Rdiv. assert (/ x < 0) by (apply Rinv_lt_0_compat; exact Hx'). nra. }
      assert (0 < atan (y / x)) by (rewrite <- atan_0; apply atan_increasing; assumption).
      lra.
  - destruct (Rlt_dec 0 y); [lra|]. destruct (Rlt_dec y 0); lra.
Qed.

Lemma getEulerYPR_yaw_range (m : btMatrix3x3.t R) :
  - PI < btMatrix3x3.yaw (btMatrix3x3.getEulerYPR m) <= PI.
Proof.
  pose proof PI_RGT_0 as Hpi.
  unfold btMatrix3x3.getEulerYPR.
  destruct (bt_leb _ _).
  - destruct (bt_ltb _ _); cbn [btMatrix3x3.yaw bt_0 exact_ops]; lra.
  - cbn [btMatrix3x3.yaw btAtan2 exact_trig]. apply Ratan2_range.
Qed.

Lemma getYaw_range (q : btQuaternion.t R) : - PI < tf2.getYaw q <= PI.
Proof.
  unfold tf2.getYaw, btMatrix3x3.getRPY. apply getEulerYPR_yaw_range.
Qed.

(** The matrix of a quaternion does not change when the quaternion is
    multiplied by a non-zero scalar. *)
Lemma setRotation_scale (q : btQuaternion.t R) (k : R) :
  k <> 0 -> btQuaternion.length2 q <> 0 ->
  btMatrix3x3.setRotation (btQuaternion.scale q k) = btMatrix3x3.setRotation q.
Proof.
  intros Hk Hq. destruct q as [x y z w].
  unfold btMatrix3x3.setRotation, btQuaternion.scale, btQuaternion.length2, btQuaternion.dot in *.
  simpl in *.
  set (n := x * x + y * y + z * z + w * w) in *.
  replace (x * k * (x * k) + y * k * (y * k) + z * k * (z * k) + w * k * (w * k))
    with (k * k * n) by (unfold n; ring).
  f_equal; f_equal; field; auto.
Qed.

Lemma scale_length2 (q : btQuaternion.t R) (k : R) :
  btQuaternion.length2 (btQuaternion.scale q k) = k * k * btQuaternion.length2 q.
Proof.
  destruct q as [x y z w].
  unfold btQuaternion.scale, btQuaternion.length2, btQuaternion.dot. simpl. ring.
Qed.

Lemma setRotation_normalize (q : btQuaternion.t R) :
  btQuaternion.length2 q <> 0 ->
  btMatrix3x3.setRotation (btQuaternion.normalize q) = btMatrix3x3.setRotation q.
Proof.
  intros Hq. unfold btQuaternion.normalize, btQuaternion.div.
  apply setRotation_scale; [|exact Hq].
  assert (Hpos : 0 < btQuaternion.length2 q) by (pose proof (length2_nonneg q); lra).
  pose proof (sqrt_lt_R0 _ Hpos) as Hs.
  unfold btQuaternion.length. simpl.
  apply Rgt_not_eq. unfold Rdiv. rewrite Rmult_1_l. apply Rinv_0_lt_compat. exact Hs.
Qed.

Lemma getYaw_msg_exact (msg : geometry_msgs.Quaternion.t R) :
  btQuaternion.length2 (Quaternion_of_msg msg) <> 0 ->
  value (tf2.getYaw_msg msg) = tf2.getYaw (Quaternion_of_msg msg).
Proof.
  intros Hq. unfold tf2.getYaw_msg.
  destruct (tf2.not_normalized (Quaternion_of_msg msg)) eqn:Hn.
  - rewrite (quaternionMsgToTF2_warns msg Hn). cbn [bind ret value fst].
    unfold tf2.getYaw. rewrite setRotation_normalize by exact Hq. reflexivity.
  - rewrite (quaternionMsgToTF2_copies msg Hn). reflexivity.
Qed.

Lemma Quaternion_of_msg_of_Quaternion (q : btQuaternion.t R) :
  Quaternion_of_msg (msg_of_Quaternion q) = q.
Proof. destruct q. reflexivity. Qed.

Lemma not_normalized_false_exact (q : btQuaternion.t R) :
  tf2.not_normalized q = false <->
  Rabs (btQuaternion.length2 q - 1) <= 13421773 / 134217728.
Proof. unfold tf2.not_normalized. simpl. apply Rltb_false. Qed.

(** X8.  In exact arithmetic, what quaternionMsgToTF2 returns for a message
    that is not the zero quaternion is within the tolerance: its squared
    length deviates from 1 by at most QUATERNION_TOLERANCE.  The repair is
    therefore done once: writing the result with quaternionTF2ToMsg emits
    no warning and copies its fields, and converting the message so
    written gives the same quaternion again, without a warning. *)
Theorem repaired_quaternion_within_tolerance (msg : geometry_msgs.Quaternion.t R) :
  btQuaternion.length2 (Quaternion_of_msg msg) <> 0 ->
  let bt := value (tf2.quaternionMsgToTF2 msg) in
  Rabs (btQuaternion.length2 bt - 1) <= 13421773 / 134217728
  /\ (forall out, tf2.quaternionTF2ToMsg bt out = ((bt, msg_of_Quaternion bt), []))
  /\ tf2.quaternionMsgToTF2 (msg_of_Quaternion bt) = (bt, []).
Proof.
  intros Hq bt.
  assert (Hn : tf2.not_normalized bt = false).
  { unfold bt. destruct (tf2.not_normalized (Quaternion_of_msg msg)) eqn:E.
    - rewrite (quaternionMsgToTF2_warns msg E). cbn [value fst].
      apply not_normalized_unit, length2_normalize. exact Hq.
    - rewrite (quaternionMsgToTF2_copies msg E). exact E. }
  split; [apply not_normalized_false_exact; exact Hn|split].
  - intros out. apply quaternionTF2ToMsg_copies. exact Hn.
  - rewrite <- (Quaternion_of_msg_of_Quaternion bt) at 2.
    apply quaternionMsgToTF2_copies.
    rewrite Quaternion_of_msg_of_Quaternion. exact Hn.
Qed.

Lemma repaired_quaternion_within_tolerance_witness :
  let bt := value (tf2.quaternionMsgToTF2 (geometry_msgs.Quaternion.mk 1 1 0 0)) in
  Rabs (btQuaternion.length2 bt - 1) <= 13421773 / 134217728
  /\ (forall out, tf2.quaternionTF2ToMsg bt out = ((bt, msg_of_Quaternion bt), []))
  /\ tf2.quaternionMsgToTF2 (msg_of_Quaternion bt) = (bt, []).
Proof.
  apply (@repaired_quaternion_within_tolerance (geometry_msgs.Quaternion.mk 1 1 0 0)).
  unfold btQuaternion.length2, btQuaternion.dot. simpl. lra.
Defined.

(** X9.  In exact arithmetic createQuaternionFromRPY returns a unit
    quaternion for all three angles, so that
    createQuaternionMsgFromRollPitchYaw and createQuaternionMsgFromYaw
    never warn: the message they return holds the components of the
    quaternion, and no warning is emitted. *)
Theorem createQuaternionMsg_never_warns :
  (forall roll pitch yaw : R,
      btQuaternion.length2 (tf2.createQuaternionFromRPY roll pitch yaw) = 1)
  /\ (forall roll pitch yaw : R,
      tf2.createQuaternionMsgFromRollPitchYaw roll pitch yaw =
        (msg_of_Quaternion (tf2.createQuaternionFromRPY roll pitch yaw), []))
  /\ (forall yaw : R,
      tf2.createQuaternionMsgFromYaw yaw =
        (msg_of_Quaternion (tf2.createQuaternionFromYaw yaw), [])).
Proof.
  split; [|split].
  - intros roll pitch yaw. apply length2_setRPY.
  - intros roll pitch yaw. unfold tf2.createQuaternionMsgFromRollPitchYaw. cbv zeta.
    rewrite quaternionTF2ToMsg_copies
      by (apply not_normalized_unit, length2_setRPY).
    reflexivity.
  - intros yaw. unfold tf2.createQuaternionMsgFromYaw, tf2.createQuaternionFromYaw. cbv zeta.
    rewrite quaternionTF2ToMsg_copies
      by (apply not_normalized_unit, length2_setRPY).
    reflexivity.
Qed.

(** X10.  In exact arithmetic getYaw gives back every yaw between -PI
    (excluded) and PI (included) from which createQuaternionFromYaw built
    the quaternion. *)
Theorem getYaw_inverts_createQuaternionFromYaw (yaw : R) :
  - PI < yaw <= PI -> tf2.getYaw (tf2.createQuaternionFromYaw yaw) = yaw.
Proof.
  intros Hy. rewrite getYaw_createQuaternionFromYaw_eq. apply Ratan2_sin_cos. exact Hy.
Qed.

Lemma getYaw_inverts_createQuaternionFromYaw_witness :
  tf2.getYaw (tf2.createQuaternionFromYaw PI) = PI.
Proof.
  apply getYaw_inverts_createQuaternionFromYaw.
  pose proof PI_RGT_0. lra.
Defined.


(** X12.  In exact arithmetic the yaw of a quaternion does not depend on
    its length: multiplying a non-zero quaternion by a non-zero scalar, a
    negative one included, leaves getYaw unchanged.  Hence getYaw of a
    non-zero message is getYaw of the quaternion of its fields, whether or
    not quaternionMsgToTF2 normalized it on the way. *)
Theorem getYaw_ignores_scale :
  (forall (q : btQuaternion.t R) (k : R),
      k <> 0 -> btQuaternion.length2 q <> 0 ->
      tf2.getYaw (btQuaternion.scale q k) = tf2.getYaw q)
  /\ (forall msg : geometry_msgs.Quaternion.t R,
      btQuaternion.length2 (Quaternion_of_msg msg) <> 0 ->
      value (tf2.getYaw_msg msg) = tf2.getYaw (Quaternion_of_msg msg)).
Proof.
  split.
  - intros q k Hk Hq. unfold tf2.getYaw. rewrite setRotation_scale by assumption. reflexivity.
  - exact getYaw_msg_exact.
Qed.

Lemma getYaw_ignores_scale_witness :
  tf2.getYaw (btQuaternion.scale (btQuaternion.mk 0 0 1 1) (-3)) =
  tf2.getYaw (btQuaternion.mk 0 0 1 1).
Proof.
  apply (proj1 getYaw_ignores_scale).
  - lra.
  - unfold btQuaternion.length2, btQuaternion.dot. simpl. lra.
Defined.

(** X13.  In exact arithmetic, away from gimbal lock getYaw gives back the
    yaw from which createQuaternionFromRPY built the quaternion: for every
    roll, every pitch strictly between -PI/2 and PI/2 and every yaw
    between -PI (excluded) and PI (included). *)
Theorem getYaw_inverts_createQuaternionFromRPY (roll pitch yaw : R) :
  - (PI / 2) < pitch < PI / 2 -> - PI < yaw <= PI ->
  tf2.getYaw (tf2.createQuaternionFromRPY roll pitch yaw) = yaw.
Proof.
  intros Hp Hy. unfold tf2.getYaw, tf2.createQuaternionFromRPY, btMatrix3x3.getRPY. cbv zeta.
  rewrite (getEulerYPR_setRPY roll yaw Hp). cbn [btMatrix3x3.yaw].
  apply Ratan2_sin_cos. exact Hy.
Qed.

Lemma getYaw_inverts_createQuaternionFromRPY_witness :
  tf2.getYaw (tf2.createQuaternionFromRPY 1 0 PI) = PI.
Proof.
  apply getYaw_inverts_createQuaternionFromRPY; pose proof PI_RGT_0; lra.
Defined.


(** X15.  In exact arithmetic, the message createQuaternionMsgFromYaw
    builds for a yaw between -PI (excluded) and PI (included) has that yaw:
    getYaw of the message returns it, and neither function warns. *)
Theorem yaw_message_round_trip (yaw : R) :
  - PI < yaw <= PI ->
  (m <- tf2.createQuaternionMsgFromYaw yaw ;; tf2.getYaw_msg m) = (yaw, []).
Proof.
  intros Hy.
  assert (Hn : tf2.not_normalized (tf2.createQuaternionFromYaw yaw) = false)
    by (apply not_normalized_unit, length2_setRPY).
  unfold tf2.createQuaternionMsgFromYaw. cbv zeta.
  fold (tf2.createQuaternionFromYaw yaw).
  rewrite (quaternionTF2ToMsg_copies _ _ Hn).
  cbn [bind ret snd app]. unfold tf2.getYaw_msg.
  rewrite quaternionMsgToTF2_copies
    by (rewrite Quaternion_of_msg_of_Quaternion; exact Hn).
  rewrite Quaternion_of_msg_of_Quaternion. cbn [bind ret app].
  rewrite getYaw_createQuaternionFromYaw_eq, Ratan2_sin_cos by exact Hy. reflexivity.
Qed.

Lemma yaw_message_round_trip_witness :
  (m <- tf2.createQuaternionMsgFromYaw PI ;; tf2.getYaw_msg m) = (PI, []).
Proof.
  apply yaw_message_round_trip. pose proof PI_RGT_0. lra.
Defined.

End ExactArithmetic.
